(** * mathviz: the fixed-step RK4 integration engine of [src/lib/solvers.ts]

    A shallow embedding of the TypeScript solver module and the proofs of
    its specified properties.

    - JavaScript numbers are IEEE-754 binary64 values.  They are modelled by
      the Standard Library's executable specification of binary floating
      point, [spec_float], at precision 53 and maximal exponent 1024, with
      round-to-nearest-even arithmetic ([SFadd], [SFmul], ...).  Nothing is
      idealised to the reals: NaN, the infinities and the two zeros are
      values like any other.
    - [Math.sin] is a host built-in whose result is not fixed bit for bit by
      the language; it is a parameter of the development.
    - The loop counter [i] and the step count [steps] are integers ([Z]);
      [steps] may be negative.  (As doubles they are exact up to [2^53],
      far more than an array can hold.)  The [for] loop is run with explicit
      fuel and returns [None] when the fuel is exhausted before the loop
      condition fails, so that termination is a theorem and not an artefact
      of the encoding.
    - A JavaScript array that is only ever appended to is a [list];
      [points.push(p)] is [points ++ [p]]. *)

From Stdlib Require Import String ZArith List Lia Bool SpecFloat.
Import ListNotations.
Open Scope Z_scope.

(* ================================================================= *)
(** ** JavaScript numbers *)

Module Float64.

Definition prec : Z := 53.
Definition emax : Z := 1024.

Definition number : Type := spec_float.

(** Integer literals of the source text: the nearest binary64 value. *)
Definition ofZ (n : Z) : spec_float := binary_normalize prec emax n 0 false.

(** Used for printing only: the integer a value stands for, if any. *)
Definition toZ (x : spec_float) : option Z :=
  match x with
  | S754_zero false => Some 0
  | S754_finite s m e =>
      let v := if s then Z.neg m else Z.pos m in
      let n := if 0 <=? e then Z.shiftl v e else Z.shiftr v (- e) in
      match ofZ n with
      | S754_finite s' m' e' =>
          if (Bool.eqb s s' && Pos.eqb m m' && Z.eqb e e')%bool
          then Some n else None
      | _ => None
      end
  | _ => None
  end.

Declare Scope num_scope.
Delimit Scope num_scope with num.
Bind Scope num_scope with number.
Number Notation spec_float ofZ toZ : num_scope.

Definition add : number -> number -> number := SFadd prec emax.
Definition sub : number -> number -> number := SFsub prec emax.
Definition mul : number -> number -> number := SFmul prec emax.
Definition div : number -> number -> number := SFdiv prec emax.
Definition neg : number -> number := SFopp.

Infix "+" := add : num_scope.
Infix "-" := sub : num_scope.
Infix "*" := mul : num_scope.
Infix "/" := div : num_scope.
Notation "- x" := (neg x) : num_scope.

(** [Number.isFinite]: neither NaN nor an infinity. *)
Definition isFinite (x : number) : bool :=
  match x with
  | S754_zero _ | S754_finite _ _ _ => true
  | S754_infinity _ | S754_nan => false
  end.

Definition isNaN (x : number) : bool :=
  match x with
  | S754_nan => true
  | _ => false
  end.

(** The [===] of JavaScript on numbers: IEEE equality, under which NaN
    differs from itself and the two zeros are equal. *)
Definition strict_eq (x y : number) : bool := SFeqb x y.

Definition NaN : number := S754_nan.
Definition neg_zero : number := S754_zero true.

End Float64.
Import Float64.
Open Scope num_scope.

Arguments add : simpl never.
Arguments sub : simpl never.
Arguments mul : simpl never.
Arguments div : simpl never.
Arguments neg : simpl never.

(* ================================================================= *)
(** ** The integrator *)

Definition Vec2 : Type := number * number.
Definition Vec3 : Type := number * number * number.

Definition DerivativeFn2D : Type := number -> Vec2 -> Vec2.
Definition DerivativeFn3D : Type := number -> Vec3 -> Vec3.

(** [y_i] stands for [y[i]] and [kj_i] for [kj[i]]. *)
Definition rk4Step2D (f : DerivativeFn2D) (t : number) (y : Vec2) (dt : number)
  : Vec2 :=
  let '(y_0, y_1) := y in
  let '(k1_0, k1_1) := f t y in
  let '(k2_0, k2_1) :=
    f (t + dt / 2) (y_0 + k1_0 * dt / 2, y_1 + k1_1 * dt / 2) in
  let '(k3_0, k3_1) :=
    f (t + dt / 2) (y_0 + k2_0 * dt / 2, y_1 + k2_1 * dt / 2) in
  let '(k4_0, k4_1) :=
    f (t + dt) (y_0 + k3_0 * dt, y_1 + k3_1 * dt) in
  (y_0 + (k1_0 + 2 * k2_0 + 2 * k3_0 + k4_0) * dt / 6,
   y_1 + (k1_1 + 2 * k2_1 + 2 * k3_1 + k4_1) * dt / 6).

Definition rk4Step3D (f : DerivativeFn3D) (t : number) (y : Vec3) (dt : number)
  : Vec3 :=
  let '(y_0, y_1, y_2) := y in
  let '(k1_0, k1_1, k1_2) := f t y in
  let '(k2_0, k2_1, k2_2) :=
    f (t + dt / 2)
      (y_0 + k1_0 * dt / 2,
       y_1 + k1_1 * dt / 2,
       y_2 + k1_2 * dt / 2) in
  let '(k3_0, k3_1, k3_2) :=
    f (t + dt / 2)
      (y_0 + k2_0 * dt / 2,
       y_1 + k2_1 * dt / 2,
       y_2 + k2_2 * dt / 2) in
  let '(k4_0, k4_1, k4_2) :=
    f (t + dt)
      (y_0 + k3_0 * dt,
       y_1 + k3_1 * dt,
       y_2 + k3_2 * dt) in
  (y_0 + (k1_0 + 2 * k2_0 + 2 * k3_0 + k4_0) * dt / 6,
   y_1 + (k1_1 + 2 * k2_1 + 2 * k3_1 + k4_1) * dt / 6,
   y_2 + (k1_2 + 2 * k2_2 + 2 * k3_2 + k4_2) * dt / 6).

(* ================================================================= *)
(** ** The system catalog: derivative constructors *)

Definition lorenzDerivative (sigma rho beta : number) : DerivativeFn3D :=
  fun _t '(x, y, z) =>
    (sigma * (y - x),
     x * (rho - z) - y,
     x * y - beta * z).

Definition vanDerPolDerivative (mu : number) : DerivativeFn2D :=
  fun _t '(x, y) =>
    (y,
     mu * (1 - x * x) * y - x).

Definition dampedPendulumDerivative (Math_sin : number -> number)
    (gamma omega0 : number) : DerivativeFn2D :=
  fun _t '(theta, omega) =>
    (omega,
     - gamma * omega - omega0 * omega0 * Math_sin theta).

Definition rosslerDerivative (a b c : number) : DerivativeFn3D :=
  fun _t '(x, y, z) =>
    (- y - z,
     x + a * y,
     b + z * (x - c)).

(* ================================================================= *)
(** ** Trajectory points and the solve entry points *)

Module THREE.
Record Vector3 : Type := new_Vector3 { x : number; y : number; z : number }.
End THREE.

(** [points.push(p)] *)
Definition push {A : Type} (points : list A) (p : A) : list A := points ++ [p].

(** [for (let i = i0; i < steps; i++) s = body(s)], with fuel: one unit is
    spent per iteration, and [None] means the fuel ran out while the loop
    condition still held. *)
Fixpoint for_loop {St : Type} (fuel : nat) (i steps : Z) (body : St -> St)
    (s : St) : option St :=
  if i <? steps then
    match fuel with
    | O => None
    | S fuel' => for_loop fuel' (i + 1)%Z steps body (body s)
    end
  else Some s.

(** The loop-carried variables of a solve function are [state], [t] and
    [points]; its result is [points]. *)
Definition return_points {St : Type}
    (r : option (St * number * list THREE.Vector3))
  : option (list THREE.Vector3) :=
  match r with
  | Some (_, _, points) => Some points
  | None => None
  end.

Module LorenzParams.
Record t : Type := make
  { sigma : number; rho : number; beta : number;
    x0 : number; y0 : number; z0 : number;
    dt : number; steps : Z }.
End LorenzParams.

Module VanDerPolParams.
Record t : Type := make
  { mu : number;
    x0 : number; y0 : number;
    dt : number; steps : Z }.
End VanDerPolParams.

Module DampedPendulumParams.
Record t : Type := make
  { gamma : number; omega0 : number;
    theta0 : number; omegaInit : number;
    dt : number; steps : Z }.
End DampedPendulumParams.

Module RosslerParams.
Record t : Type := make
  { a : number; b : number; c : number;
    x0 : number; y0 : number; z0 : number;
    dt : number; steps : Z }.
End RosslerParams.

Definition solveLorenz (fuel : nat) (params : LorenzParams.t)
  : option (list THREE.Vector3) :=
  let '(LorenzParams.make sigma rho beta x0 y0 z0 dt steps) := params in
  let f := lorenzDerivative sigma rho beta in
  let points : list THREE.Vector3 := [] in
  let state : Vec3 := (x0, y0, z0) in
  let t : number := 0 in
  let points :=
    let '(s_0, s_1, s_2) := state in
    push points (THREE.new_Vector3 s_0 s_1 s_2) in
  return_points
    (for_loop fuel 0%Z steps
       (fun '(state, t, points) =>
          let state := rk4Step3D f t state dt in
          let t := t + dt in
          let points :=
            let '(s_0, s_1, s_2) := state in
            push points (THREE.new_Vector3 s_0 s_1 s_2) in
          (state, t, points))
       (state, t, points)).

Definition solveVanDerPol (fuel : nat) (params : VanDerPolParams.t)
  : option (list THREE.Vector3) :=
  let '(VanDerPolParams.make mu x0 y0 dt steps) := params in
  let f := vanDerPolDerivative mu in
  let points : list THREE.Vector3 := [] in
  let state : Vec2 := (x0, y0) in
  let t : number := 0 in
  let points :=
    let '(s_0, s_1) := state in
    push points (THREE.new_Vector3 s_0 s_1 0) in
  return_points
    (for_loop fuel 0%Z steps
       (fun '(state, t, points) =>
          let state := rk4Step2D f t state dt in
          let t := t + dt in
          let points :=
            let '(s_0, s_1) := state in
            push points (THREE.new_Vector3 s_0 s_1 0) in
          (state, t, points))
       (state, t, points)).

Definition solveDampedPendulum (Math_sin : number -> number) (fuel : nat)
    (params : DampedPendulumParams.t)
  : option (list THREE.Vector3) :=
  let '(DampedPendulumParams.make gamma omega0 theta0 omegaInit dt steps) :=
    params in
  let f := dampedPendulumDerivative Math_sin gamma omega0 in
  let points : list THREE.Vector3 := [] in
  let state : Vec2 := (theta0, omegaInit) in
  let t : number := 0 in
  let points :=
    let '(s_0, s_1) := state in
    push points (THREE.new_Vector3 s_0 s_1 0) in
  return_points
    (for_loop fuel 0%Z steps
       (fun '(state, t, points) =>
          let state := rk4Step2D f t state dt in
          let t := t + dt in
          let points :=
            let '(s_0, s_1) := state in
            push points (THREE.new_Vector3 s_0 s_1 0) in
          (state, t, points))
       (state, t, points)).

Definition solveRossler (fuel : nat) (params : RosslerParams.t)
  : option (list THREE.Vector3) :=
  let '(RosslerParams.make a b c x0 y0 z0 dt steps) := params in
  let f := rosslerDerivative a b c in
  let points : list THREE.Vector3 := [] in
  let state : Vec3 := (x0, y0, z0) in
  let t : number := 0 in
  let points :=
    let '(s_0, s_1, s_2) := state in
    push points (THREE.new_Vector3 s_0 s_1 s_2) in
  return_points
    (for_loop fuel 0%Z steps
       (fun '(state, t, points) =>
          let state := rk4Step3D f t state dt in
          let t := t + dt in
          let points :=
            let '(s_0, s_1, s_2) := state in
            push points (THREE.new_Vector3 s_0 s_1 s_2) in
          (state, t, points))
       (state, t, points)).

(* ================================================================= *)
(** ** The scheme of the specification, for any vector width

    State vectors are lists of numbers here, and the arithmetic of the
    specification's formulas is element-wise, with the usual reading of the
    operators: [*] and [/] associate to the left and bind tighter than [+],
    so [k*dt/2] is [(k*dt)/2] and the weighted sum is
    [((k1 + 2*k2) + 2*k3) + k4]. *)

Module Scheme.

Definition vec : Type := list number.

Fixpoint vadd (u v : vec) : vec :=
  match u, v with
  | a :: u', b :: v' => (a + b) :: vadd u' v'
  | _, _ => []
  end.

(** vector times scalar, scalar times vector, vector over scalar *)
Definition vmul (v : vec) (c : number) : vec := map (fun a => a * c) v.
Definition smul (c : number) (v : vec) : vec := map (fun a => c * a) v.
Definition vdiv (v : vec) (c : number) : vec := map (fun a => a / c) v.

Definition rk4 (f : number -> vec -> vec) (t : number) (y : vec) (dt : number)
  : vec :=
  let k1 := f t y in
  let k2 := f (t + dt / 2) (vadd y (vdiv (vmul k1 dt) 2)) in
  let k3 := f (t + dt / 2) (vadd y (vdiv (vmul k2 dt) 2)) in
  let k4 := f (t + dt) (vadd y (vmul k3 dt)) in
  vadd y
    (vdiv (vmul (vadd (vadd (vadd k1 (smul 2 k2)) (smul 2 k3)) k4) dt) 6).

(** Vectors of width 2 and 3 as the code has them, seen as lists. *)
Definition of_Vec2 (v : Vec2) : vec := let '(a, b) := v in [a; b].
Definition of_Vec3 (v : Vec3) : vec := let '(a, b, c) := v in [a; b; c].

Definition to_Vec2 (l : vec) : Vec2 :=
  match l with
  | [a; b] => (a, b)
  | _ => (NaN, NaN)
  end.

Definition to_Vec3 (l : vec) : Vec3 :=
  match l with
  | [a; b; c] => (a, b, c)
  | _ => (NaN, NaN, NaN)
  end.

Definition lift2 (f : DerivativeFn2D) : number -> vec -> vec :=
  fun t l => of_Vec2 (f t (to_Vec2 l)).

Definition lift3 (f : DerivativeFn3D) : number -> vec -> vec :=
  fun t l => of_Vec3 (f t (to_Vec3 l)).

End Scheme.

(* ================================================================= *)
(** ** The vector fields of the specification's table

    Written as mathematics reads them: [x²] is the square of [x] and a
    leading minus sign negates the product that follows it. *)

Module Table.

Definition sq (x : number) : number := x * x.

Definition lorenz (sigma rho beta : number) (s : Vec3) : Vec3 :=
  let '(x, y, z) := s in
  (sigma * (y - x), x * (rho - z) - y, x * y - beta * z).

Definition vanDerPol (mu : number) (s : Vec2) : Vec2 :=
  let '(x, y) := s in
  (y, mu * (1 - sq x) * y - x).

Definition dampedPendulum (sin : number -> number) (gamma omega0 : number)
    (s : Vec2) : Vec2 :=
  let '(theta, omega) := s in
  (omega, - (gamma * omega) - sq omega0 * sin theta).

Definition rossler (a b c : number) (s : Vec3) : Vec3 :=
  let '(x, y, z) := s in
  (- y - z, x + a * y, b + z * (x - c)).

End Table.

(* ================================================================= *)
(** ** The states a solve loop visits *)

(** [orbit step dt n t s]: the [n] states that follow [s] when the stepper
    is applied repeatedly, the time argument starting at [t] and growing by
    [dt] (a floating-point addition) after each step. *)
Fixpoint orbit {St : Type} (step : number -> St -> St) (dt : number) (n : nat)
    (t : number) (s : St) : list St :=
  match n with
  | O => []
  | S n' => let s' := step t s in s' :: orbit step dt n' (t + dt) s'
  end.

(** The time argument the loop passes to the stepper in iteration [n]:
    [0 + dt + ... + dt], accumulated in floating point. *)
Fixpoint accumulated_time (dt : number) (n : nat) (t : number) : number :=
  match n with
  | O => t
  | S n' => accumulated_time dt n' (t + dt)
  end.

Definition point3 (s : Vec3) : THREE.Vector3 :=
  let '(s_0, s_1, s_2) := s in THREE.new_Vector3 s_0 s_1 s_2.

Definition point2 (s : Vec2) : THREE.Vector3 :=
  let '(s_0, s_1) := s in THREE.new_Vector3 s_0 s_1 0.

Definition state3 (p : THREE.Vector3) : Vec3 := (THREE.x p, THREE.y p, THREE.z p).
Definition state2 (p : THREE.Vector3) : Vec2 := (THREE.x p, THREE.y p).

Definition step3D (f : DerivativeFn3D) (dt : number) : number -> Vec3 -> Vec3 :=
  fun t s => rk4Step3D f t s dt.

Definition step2D (f : DerivativeFn2D) (dt : number) : number -> Vec2 -> Vec2 :=
  fun t s => rk4Step2D f t s dt.

(** The trajectory of a stepper from [s0]: the initial point, then one point
    per step. *)
Definition trajectory {St : Type} (step : number -> St -> St)
    (mk : St -> THREE.Vector3) (dt : number) (n : nat) (s0 : St)
  : list THREE.Vector3 :=
  mk s0 :: map mk (orbit step dt n 0 s0).

(** A derivative function, or a stepper, that ignores its time argument. *)
Definition autonomous {St : Type} (g : number -> St -> St) : Prop :=
  forall t t' s, g t s = g t' s.

(* ================================================================= *)
(** ** Overflow and numeric equality *)

(** The weighted sum of slopes [k1 + 2*k2 + 2*k3 + k4] that a step forms
    before it multiplies by [dt] and divides by [6]: the stepper's own
    stages, stopped one operation short of its result. *)
Definition weighted_slope2D (f : DerivativeFn2D) (t : number) (y : Vec2)
    (dt : number) : Vec2 :=
  let '(y_0, y_1) := y in
  let '(k1_0, k1_1) := f t y in
  let '(k2_0, k2_1) :=
    f (t + dt / 2) (y_0 + k1_0 * dt / 2, y_1 + k1_1 * dt / 2) in
  let '(k3_0, k3_1) :=
    f (t + dt / 2) (y_0 + k2_0 * dt / 2, y_1 + k2_1 * dt / 2) in
  let '(k4_0, k4_1) :=
    f (t + dt) (y_0 + k3_0 * dt, y_1 + k3_1 * dt) in
  (k1_0 + 2 * k2_0 + 2 * k3_0 + k4_0,
   k1_1 + 2 * k2_1 + 2 * k3_1 + k4_1).

Definition weighted_slope3D (f : DerivativeFn3D) (t : number) (y : Vec3)
    (dt : number) : Vec3 :=
  let '(y_0, y_1, y_2) := y in
  let '(k1_0, k1_1, k1_2) := f t y in
  let '(k2_0, k2_1, k2_2) :=
    f (t + dt / 2)
      (y_0 + k1_0 * dt / 2,
       y_1 + k1_1 * dt / 2,
       y_2 + k1_2 * dt / 2) in
  let '(k3_0, k3_1, k3_2) :=
    f (t + dt / 2)
      (y_0 + k2_0 * dt / 2,
       y_1 + k2_1 * dt / 2,
       y_2 + k2_2 * dt / 2) in
  let '(k4_0, k4_1, k4_2) :=
    f (t + dt)
      (y_0 + k3_0 * dt,
       y_1 + k3_1 * dt,
       y_2 + k3_2 * dt) in
  (k1_0 + 2 * k2_0 + 2 * k3_0 + k4_0,
   k1_1 + 2 * k2_1 + 2 * k3_1 + k4_1,
   k1_2 + 2 * k2_2 + 2 * k3_2 + k4_2).

Definition finite2 (s : Vec2) : bool :=
  let '(s_0, s_1) := s in isFinite s_0 && isFinite s_1.

Definition finite3 (s : Vec3) : bool :=
  let '(s_0, s_1, s_2) := s in isFinite s_0 && isFinite s_1 && isFinite s_2.

(** Coordinate-wise [===]. *)
Definition state_eq2 (s s' : Vec2) : bool :=
  let '(s_0, s_1) := s in
  let '(s'_0, s'_1) := s' in
  strict_eq s_0 s'_0 && strict_eq s_1 s'_1.

Definition state_eq3 (s s' : Vec3) : bool :=
  let '(s_0, s_1, s_2) := s in
  let '(s'_0, s'_1, s'_2) := s' in
  strict_eq s_0 s'_0 && strict_eq s_1 s'_1 && strict_eq s_2 s'_2.

(** [THREE.Vector3.equals]: coordinate-wise [===]. *)
Definition point_eq (p q : THREE.Vector3) : bool :=
  strict_eq (THREE.x p) (THREE.x q)
  && strict_eq (THREE.y p) (THREE.y q)
  && strict_eq (THREE.z p) (THREE.z q).

(** The double [2^600]: finite, with a square that is not. *)
Definition two_pow_600 : number := S754_finite false 4503599627370496 548.

(* ================================================================= *)
(** ** Zeros *)

Definition isZero (x : number) : bool :=
  match x with
  | S754_zero _ => true
  | _ => false
  end.

Definition zero2 (s : Vec2) : bool :=
  let '(s_0, s_1) := s in isZero s_0 && isZero s_1.

Definition zero3 (s : Vec3) : bool :=
  let '(s_0, s_1, s_2) := s in isZero s_0 && isZero s_1 && isZero s_2.

(** What may become of a coordinate [a] that is later [b]: if [a] is not
    finite neither is [b], and if [a] is NaN so is [b]. *)
Definition stays_non_finite (a b : number) : Prop :=
  (isFinite a = false -> isFinite b = false)
  /\ (isNaN a = true -> isNaN b = true).

Definition point_stays_non_finite (p q : THREE.Vector3) : Prop :=
  stays_non_finite (THREE.x p) (THREE.x q)
  /\ stays_non_finite (THREE.y p) (THREE.y q)
  /\ stays_non_finite (THREE.z p) (THREE.z q).

(* ================================================================= *)
(** ** Arrays read by index *)

(** [a[i]] for an integer [i]: [undefined] outside the array. *)
Definition array_get {A : Type} (a : list A) (i : Z) : option A :=
  if (i <? 0)%Z then None else nth_error a (Z.to_nat i).

(** [for (let i = i0; i < bound; i += stride) s = body(i, s)], with fuel
    as in [for_loop]. *)
Fixpoint for_range {St : Type} (fuel : nat) (i bound stride : Z)
    (body : Z -> St -> St) (s : St) : option St :=
  if (i <? bound)%Z then
    match fuel with
    | O => None
    | S fuel' => for_range fuel' (i + stride)%Z bound stride body (body i s)
    end
  else Some s.

(* ================================================================= *)
(** ** [lib/wasm.ts]: flat buffers to points *)

Module Wasm.

(** [new THREE.Vector3(x, y, z)] with arguments that may be [undefined]:
    the constructor of three.js is [constructor(x = 0, y = 0, z = 0)]. *)
Definition new_Vector3 (x y z : option number) : THREE.Vector3 :=
  THREE.new_Vector3
    (match x with Some v => v | None => 0 end)
    (match y with Some v => v | None => 0 end)
    (match z with Some v => v | None => 0 end).

(** [data] is the [Float64Array]. *)
Definition toVector3Array (fuel : nat) (data : list number) (dim : Z)
  : option (list THREE.Vector3) :=
  let points : list THREE.Vector3 := [] in
  for_range fuel 0%Z (Z.of_nat (length data)) dim
    (fun i points =>
       push points
         (new_Vector3 (array_get data i) (array_get data (i + 1)%Z)
            (array_get data (i + 2)%Z)))
    points.

Definition toVector3Array2D (fuel : nat) (data : list number)
  : option (list THREE.Vector3) :=
  let points : list THREE.Vector3 := [] in
  for_range fuel 0%Z (Z.of_nat (length data)) 2%Z
    (fun i points =>
       push points
         (new_Vector3 (array_get data i) (array_get data (i + 1)%Z) (Some 0)))
    points.

(** The layout the solver exports document for their result:
    [[x0, y0, z0, x1, y1, z1, ...]], and [[x0, y0, x1, y1, ...]] for the
    planar systems. *)
Definition flat3 (points : list THREE.Vector3) : list number :=
  flat_map (fun p => [THREE.x p; THREE.y p; THREE.z p]) points.

Definition flat2 (states : list Vec2) : list number :=
  flat_map (fun s => let '(s_0, s_1) := s in [s_0; s_1]) states.

(** What the two loops compute, by recursion on the buffer. *)
Fixpoint groups3 (data : list number) : list THREE.Vector3 :=
  match data with
  | [] => []
  | [a] => [THREE.new_Vector3 a 0 0]
  | [a; b] => [THREE.new_Vector3 a b 0]
  | a :: b :: c :: rest => THREE.new_Vector3 a b c :: groups3 rest
  end.

Fixpoint groups2 (data : list number) : list THREE.Vector3 :=
  match data with
  | [] => []
  | [a] => [THREE.new_Vector3 a 0 0]
  | a :: b :: rest => THREE.new_Vector3 a b 0 :: groups2 rest
  end.

End Wasm.

(* ================================================================= *)
(** ** [lib/equations.ts]: the preset registry

    The text fields of a preset ([name], the descriptions, [funFact],
    [paramLabels]) are display strings and take no part in any computation;
    they are left out.  A decimal literal is the double nearest to it; for
    the literals of the registry that is the correctly rounded quotient of
    two small integers, which is how they are written here ([0.01] as
    [1 / 100]). *)

(** [Math.PI] *)
Definition Math_PI : number := S754_finite false 7074237752028440 (-51).

Module Equations.

Inductive EquationType : Type :=
| lorenz | van_der_pol | damped_pendulum | rossler.

Record Initial : Type := mkInitial
  { x0 : number; y0 : number; z0 : number }.

Record Simulation : Type := mkSimulation
  { dt : number; steps : Z }.

Record EquationPreset : Type := mkEquationPreset
  { id : EquationType;
    dimension : Z;
    params : list (string * number);
    initial : Initial;
    simulation : Simulation }.

Definition equations (key : EquationType) : EquationPreset :=
  match key with
  | lorenz =>
      mkEquationPreset lorenz 3
        [("sigma"%string, 10); ("rho"%string, 28); ("beta"%string, 8 / 3)]
        (mkInitial 1 1 1)
        (mkSimulation (1 / 100) 10000)
  | van_der_pol =>
      mkEquationPreset van_der_pol 2
        [("mu"%string, 3 / 2)]
        (mkInitial 2 0 0)
        (mkSimulation (1 / 50) 5000)
  | damped_pendulum =>
      mkEquationPreset damped_pendulum 2
        [("gamma"%string, 3 / 10); ("omega0"%string, 3 / 2)]
        (mkInitial (Math_PI - 1 / 2) 0 0)
        (mkSimulation (1 / 50) 5000)
  | rossler =>
      mkEquationPreset rossler 3
        [("a"%string, 1 / 5); ("b"%string, 1 / 5); ("c"%string, 57 / 10)]
        (mkInitial 1 1 1)
        (mkSimulation (1 / 50) 10000)
  end.

(** [Object.values(equations)]: the presets in the order of their keys. *)
Definition equationList : list EquationPreset :=
  [equations lorenz; equations van_der_pol; equations damped_pendulum;
   equations rossler].

(** [params.key]: [undefined] when the object has no such property. *)
Fixpoint prop (params : list (string * number)) (key : string)
  : option number :=
  match params with
  | [] => None
  | (k, v) :: rest => if String.eqb k key then Some v else prop rest key
  end.

End Equations.

(** [v ?? d] *)
Definition nullish {A : Type} (v : option A) (d : A) : A :=
  match v with
  | Some a => a
  | None => d
  end.

(* ================================================================= *)
(** ** The components: solving a preset, and the animated marker

    [FullView] and [VisualizationCard] compute [result] with the same
    [switch]; they differ in the stride of the animation. *)

Module View.

Import Equations.

(** The [result] that [solve] hands to [setPoints]. *)
Definition solve (Math_sin : number -> number) (fuel : nat)
    (equation : EquationPreset) : option (list THREE.Vector3) :=
  let params := Equations.params equation in
  let initial := Equations.initial equation in
  let simulation := Equations.simulation equation in
  match Equations.id equation with
  | lorenz =>
      solveLorenz fuel
        (LorenzParams.make
           (nullish (prop params "sigma") 10)
           (nullish (prop params "rho") 28)
           (nullish (prop params "beta") (8 / 3))
           (x0 initial) (y0 initial) (z0 initial)
           (dt simulation) (steps simulation))
  | van_der_pol =>
      solveVanDerPol fuel
        (VanDerPolParams.make
           (nullish (prop params "mu") 1)
           (x0 initial) (y0 initial)
           (dt simulation) (steps simulation))
  | damped_pendulum =>
      solveDampedPendulum Math_sin fuel
        (DampedPendulumParams.make
           (nullish (prop params "gamma") (1 / 2))
           (nullish (prop params "omega0") 1)
           (x0 initial) (y0 initial)
           (dt simulation) (steps simulation))
  | rossler =>
      solveRossler fuel
        (RosslerParams.make
           (nullish (prop params "a") (1 / 5))
           (nullish (prop params "b") (1 / 5))
           (nullish (prop params "c") (57 / 10))
           (x0 initial) (y0 initial) (z0 initial)
           (dt simulation) (steps simulation))
  end.

(** The updater given to [setAnimatedIndex] on each animation tick;
    [length] is [points.length].  [FullView] advances by 10,
    [VisualizationCard] by 15. *)
Definition FullView_next (length prev : Z) : Z :=
  let next := (prev + 10)%Z in
  if (next >=? length)%Z then 0%Z else next.

Definition VisualizationCard_next (length prev : Z) : Z :=
  let next := (prev + 15)%Z in
  if (next >=? length)%Z then 0%Z else next.


End View.

(** The two updaters differ in the stride only. *)
Definition advance (stride length prev : Z) : Z :=
  let next := (prev + stride)%Z in
  if (next >=? length)%Z then 0%Z else next.

(** The index after [k] ticks of an updater, starting from [0]. *)
Fixpoint ticks (next : Z -> Z) (k : nat) : Z :=
  match k with
  | O => 0%Z
  | S k' => next (ticks next k')
  end.

(* ================================================================= *)
(** ** Facts about the arithmetic *)

Lemma binary_round_aux_sign (s : bool) (m e : Z) (l : location) :
  SFopp (binary_round_aux prec emax s m e l)
  = binary_round_aux prec emax (negb s) m e l.
Proof.
  unfold binary_round_aux.
  destruct (shr_fexp prec emax m e l) as [mrs' e'].
  destruct (shr_fexp prec emax _ e' loc_Exact) as [mrs'' e''].
  destruct (shr_m mrs''); try reflexivity.
  destruct (Z.leb _ _); reflexivity.
Qed.

(** Negation commutes with multiplication: rounding to nearest is
    symmetric in the sign. *)
Lemma neg_mul_l (a b : number) : - (a * b) = - a * b.
Proof.
  unfold neg, mul.
  destruct a as [sa | sa | | sa ma ea], b as [sb | sb | | sb mb eb];
    simpl; try reflexivity;
    try (destruct sa, sb; reflexivity).
  rewrite binary_round_aux_sign. destruct sa, sb; reflexivity.
Qed.

(* ================================================================= *)
(** ** The integrator implements the scheme *)

(** C1.  For every derivative function, time, state and step size, each of
    the two steppers returns exactly what the specification's scheme
    [y + (k1 + 2*k2 + 2*k3 + k4)*dt/6], with [k1 = f(t, y)],
    [k2 = f(t + dt/2, y + k1*dt/2)], [k3 = f(t + dt/2, y + k2*dt/2)] and
    [k4 = f(t + dt, y + k3*dt)], computes element-wise.  The scheme is one
    definition for every width; the steppers are its instances at widths 2
    and 3. *)
Theorem rk4Step_implements_scheme :
  (forall (f : DerivativeFn2D) (t : number) (y : Vec2) (dt : number),
      Scheme.of_Vec2 (rk4Step2D f t y dt)
      = Scheme.rk4 (Scheme.lift2 f) t (Scheme.of_Vec2 y) dt)
  /\
  (forall (f : DerivativeFn3D) (t : number) (y : Vec3) (dt : number),
      Scheme.of_Vec3 (rk4Step3D f t y dt)
      = Scheme.rk4 (Scheme.lift3 f) t (Scheme.of_Vec3 y) dt).
Proof.
  split.
  - intros f t [y_0 y_1] dt.
    unfold Scheme.rk4, Scheme.lift2, rk4Step2D; cbn [Scheme.of_Vec2 Scheme.to_Vec2].
    destruct (f t (y_0, y_1)) as [k1_0 k1_1]. cbn.
    destruct (f (t + dt / 2) _) as [k2_0 k2_1]. cbn.
    destruct (f (t + dt / 2) _) as [k3_0 k3_1]. cbn.
    destruct (f (t + dt) _) as [k4_0 k4_1]. reflexivity.
  - intros f t [[y_0 y_1] y_2] dt.
    unfold Scheme.rk4, Scheme.lift3, rk4Step3D; cbn [Scheme.of_Vec3 Scheme.to_Vec3].
    destruct (f t (y_0, y_1, y_2)) as [[k1_0 k1_1] k1_2]. cbn.
    destruct (f (t + dt / 2) _) as [[k2_0 k2_1] k2_2]. cbn.
    destruct (f (t + dt / 2) _) as [[k3_0 k3_1] k3_2]. cbn.
    destruct (f (t + dt) _) as [[k4_0 k4_1] k4_2]. reflexivity.
Qed.

(* ================================================================= *)
(** ** The derivative constructors *)

(** C2.  For every time argument and every state, the four derivative
    constructors return the vector fields of the specification's table:
    Lorenz [(sigma*(y - x), x*(rho - z) - y, x*y - beta*z)], Van der Pol
    [(y, mu*(1 - x^2)*y - x)], damped pendulum
    [(omega, -gamma*omega - omega0^2*sin(theta))] and Roessler
    [(-y - z, x + a*y, b + z*(x - c))]. *)
Theorem derivative_constructors_match_table :
  (forall (sigma rho beta t : number) (s : Vec3),
      lorenzDerivative sigma rho beta t s = Table.lorenz sigma rho beta s)
  /\
  (forall (mu t : number) (s : Vec2),
      vanDerPolDerivative mu t s = Table.vanDerPol mu s)
  /\
  (forall (Math_sin : number -> number) (gamma omega0 t : number) (s : Vec2),
      dampedPendulumDerivative Math_sin gamma omega0 t s
      = Table.dampedPendulum Math_sin gamma omega0 s)
  /\
  (forall (a b c t : number) (s : Vec3),
      rosslerDerivative a b c t s = Table.rossler a b c s).
Proof.
  split; [|split; [|split]].
  - intros sigma rho beta t [[x y] z]. reflexivity.
  - intros mu t [x y]. reflexivity.
  - intros Math_sin gamma omega0 t [theta omega].
    unfold dampedPendulumDerivative, Table.dampedPendulum, Table.sq.
    rewrite neg_mul_l. reflexivity.
  - intros a b c t [[x y] z]. reflexivity.
Qed.

Lemma lorenzDerivative_autonomous (sigma rho beta : number) :
  autonomous (lorenzDerivative sigma rho beta).
Proof. intros t t' [[x y] z]. reflexivity. Qed.

Lemma vanDerPolDerivative_autonomous (mu : number) :
  autonomous (vanDerPolDerivative mu).
Proof. intros t t' [x y]. reflexivity. Qed.

Lemma dampedPendulumDerivative_autonomous (Math_sin : number -> number)
    (gamma omega0 : number) :
  autonomous (dampedPendulumDerivative Math_sin gamma omega0).
Proof. intros t t' [theta omega]. reflexivity. Qed.

Lemma rosslerDerivative_autonomous (a b c : number) :
  autonomous (rosslerDerivative a b c).
Proof. intros t t' [[x y] z]. reflexivity. Qed.

Lemma step3D_autonomous (f : DerivativeFn3D) (dt : number) :
  autonomous f -> autonomous (step3D f dt).
Proof.
  intros Hf t t' [[y_0 y_1] y_2]. unfold step3D, rk4Step3D.
  rewrite (Hf t t').
  destruct (f t' (y_0, y_1, y_2)) as [[k1_0 k1_1] k1_2].
  rewrite (Hf (t + dt / 2) (t' + dt / 2)).
  destruct (f (t' + dt / 2) _) as [[k2_0 k2_1] k2_2].
  rewrite (Hf (t + dt / 2) (t' + dt / 2)).
  destruct (f (t' + dt / 2) _) as [[k3_0 k3_1] k3_2].
  rewrite (Hf (t + dt) (t' + dt)).
  reflexivity.
Qed.

Lemma step2D_autonomous (f : DerivativeFn2D) (dt : number) :
  autonomous f -> autonomous (step2D f dt).
Proof.
  intros Hf t t' [y_0 y_1]. unfold step2D, rk4Step2D.
  rewrite (Hf t t').
  destruct (f t' (y_0, y_1)) as [k1_0 k1_1].
  rewrite (Hf (t + dt / 2) (t' + dt / 2)).
  destruct (f (t' + dt / 2) _) as [k2_0 k2_1].
  rewrite (Hf (t + dt / 2) (t' + dt / 2)).
  destruct (f (t' + dt / 2) _) as [k3_0 k3_1].
  rewrite (Hf (t + dt) (t' + dt)).
  reflexivity.
Qed.

(* ================================================================= *)
(** ** The loop *)

Section Loop.

Context {St : Type}.
Variable step : number -> St -> St.
Variable mk : St -> THREE.Vector3.
Variable dt : number.
Variable body : St * number * list THREE.Vector3
                -> St * number * list THREE.Vector3.

Hypothesis body_eq : forall s t points,
    body (s, t, points) = (step t s, t + dt, push points (mk (step t s))).

(** With fuel for the remaining iterations the loop ends, having pushed
    one point per iteration. *)
Lemma for_loop_run (n : nat) :
  forall (fuel : nat) (i steps : Z) (s : St) (t : number)
         (points : list THREE.Vector3),
    Z.to_nat (steps - i) = n -> (n <= fuel)%nat ->
    return_points (for_loop fuel i steps body (s, t, points))
    = Some (points ++ map mk (orbit step dt n t s)).
Proof.
  induction n as [|n IH]; intros fuel i steps s t points Hn Hfuel.
  - assert (Hi : (i <? steps)%Z = false) by (apply Z.ltb_ge; lia).
    destruct fuel; simpl; rewrite Hi; simpl; now rewrite app_nil_r.
  - assert (Hi : (i <? steps)%Z = true) by (apply Z.ltb_lt; lia).
    destruct fuel as [|fuel]; [lia|].
    simpl. rewrite Hi, body_eq.
    rewrite (IH fuel (i + 1)%Z steps) by lia.
    unfold push. now rewrite <- app_assoc.
Qed.

(** Without enough fuel it does not. *)
Lemma for_loop_out_of_fuel :
  forall (fuel : nat) (i steps : Z) (x : St * number * list THREE.Vector3),
    (fuel < Z.to_nat (steps - i))%nat ->
    for_loop fuel i steps body x = None.
Proof.
  induction fuel as [|fuel IH]; intros i steps x Hlt.
  - simpl. assert (Hi : (i <? steps)%Z = true) by (apply Z.ltb_lt; lia).
    now rewrite Hi.
  - simpl. assert (Hi : (i <? steps)%Z = true) by (apply Z.ltb_lt; lia).
    rewrite Hi. apply IH. lia.
Qed.

End Loop.

Lemma solveLorenz_run (fuel : nat) (p : LorenzParams.t) :
  (Z.to_nat (LorenzParams.steps p) <= fuel)%nat ->
  solveLorenz fuel p
  = Some (trajectory
            (step3D (lorenzDerivative (LorenzParams.sigma p) (LorenzParams.rho p)
                       (LorenzParams.beta p)) (LorenzParams.dt p))
            point3 (LorenzParams.dt p) (Z.to_nat (LorenzParams.steps p))
            (LorenzParams.x0 p, LorenzParams.y0 p, LorenzParams.z0 p)).
Proof.
  destruct p as [sigma rho beta x0 y0 z0 dt steps]; simpl. intros Hfuel.
  unfold solveLorenz.
  erewrite (for_loop_run (step3D (lorenzDerivative sigma rho beta) dt) point3 dt)
    with (n := Z.to_nat steps);
    [reflexivity | | f_equal; lia | exact Hfuel].
  intros [[s_0 s_1] s_2] t points. reflexivity.
Qed.

Lemma solveRossler_run (fuel : nat) (p : RosslerParams.t) :
  (Z.to_nat (RosslerParams.steps p) <= fuel)%nat ->
  solveRossler fuel p
  = Some (trajectory
            (step3D (rosslerDerivative (RosslerParams.a p) (RosslerParams.b p)
                       (RosslerParams.c p)) (RosslerParams.dt p))
            point3 (RosslerParams.dt p) (Z.to_nat (RosslerParams.steps p))
            (RosslerParams.x0 p, RosslerParams.y0 p, RosslerParams.z0 p)).
Proof.
  destruct p as [a b c x0 y0 z0 dt steps]; simpl. intros Hfuel.
  unfold solveRossler.
  erewrite (for_loop_run (step3D (rosslerDerivative a b c) dt) point3 dt)
    with (n := Z.to_nat steps);
    [reflexivity | | f_equal; lia | exact Hfuel].
  intros [[s_0 s_1] s_2] t points. reflexivity.
Qed.

Lemma solveVanDerPol_run (fuel : nat) (p : VanDerPolParams.t) :
  (Z.to_nat (VanDerPolParams.steps p) <= fuel)%nat ->
  solveVanDerPol fuel p
  = Some (trajectory
            (step2D (vanDerPolDerivative (VanDerPolParams.mu p))
               (VanDerPolParams.dt p))
            point2 (VanDerPolParams.dt p) (Z.to_nat (VanDerPolParams.steps p))
            (VanDerPolParams.x0 p, VanDerPolParams.y0 p)).
Proof.
  destruct p as [mu x0 y0 dt steps]; simpl. intros Hfuel.
  unfold solveVanDerPol.
  erewrite (for_loop_run (step2D (vanDerPolDerivative mu) dt) point2 dt)
    with (n := Z.to_nat steps);
    [reflexivity | | f_equal; lia | exact Hfuel].
  intros [s_0 s_1] t points. reflexivity.
Qed.

Lemma solveDampedPendulum_run (Math_sin : number -> number) (fuel : nat)
    (p : DampedPendulumParams.t) :
  (Z.to_nat (DampedPendulumParams.steps p) <= fuel)%nat ->
  solveDampedPendulum Math_sin fuel p
  = Some (trajectory
            (step2D (dampedPendulumDerivative Math_sin
                       (DampedPendulumParams.gamma p)
                       (DampedPendulumParams.omega0 p))
               (DampedPendulumParams.dt p))
            point2 (DampedPendulumParams.dt p)
            (Z.to_nat (DampedPendulumParams.steps p))
            (DampedPendulumParams.theta0 p, DampedPendulumParams.omegaInit p)).
Proof.
  destruct p as [gamma omega0 theta0 omegaInit dt steps]; simpl. intros Hfuel.
  unfold solveDampedPendulum.
  erewrite (for_loop_run
              (step2D (dampedPendulumDerivative Math_sin gamma omega0) dt)
              point2 dt)
    with (n := Z.to_nat steps);
    [reflexivity | | f_equal; lia | exact Hfuel].
  intros [s_0 s_1] t points. reflexivity.
Qed.

(* ================================================================= *)
(** ** Orbits *)

Section Orbit.

Context {St : Type}.
Variable step : number -> St -> St.
Variable dt : number.

Lemma orbit_length (n : nat) :
  forall t s, length (orbit step dt n t s) = n.
Proof.
  induction n as [|n IH]; intros t s; simpl; [reflexivity|].
  now rewrite IH.
Qed.

(** Entry [i + 1] is one step from entry [i], taken at the time the loop
    has accumulated by then. *)
Lemma orbit_nth_succ (n : nat) :
  forall (i : nat) (t : number) (s : St),
    (i < n)%nat ->
    exists prev,
      nth_error (s :: orbit step dt n t s) i = Some prev
      /\ nth_error (s :: orbit step dt n t s) (S i)
         = Some (step (accumulated_time dt i t) prev).
Proof.
  induction n as [|n IH]; intros i t s Hi; [lia|].
  destruct i as [|i].
  - exists s. split; reflexivity.
  - destruct (IH i (t + dt) (step t s)) as (prev & Hprev & Hcur); [lia|].
    exists prev. split; [exact Hprev | exact Hcur].
Qed.

(** Dropping the first [i] entries leaves the orbit of entry [i], started
    at the accumulated time. *)
Lemma orbit_skipn (n : nat) :
  forall (i : nat) (t : number) (s : St),
    (i <= n)%nat ->
    exists s_i,
      nth_error (s :: orbit step dt n t s) i = Some s_i
      /\ skipn i (s :: orbit step dt n t s)
         = s_i :: orbit step dt (n - i) (accumulated_time dt i t) s_i.
Proof.
  induction n as [|n IH]; intros i t s Hi.
  - assert (i = 0)%nat as -> by lia. exists s. split; reflexivity.
  - destruct i as [|i].
    + exists s. split; reflexivity.
    + destruct (IH i (t + dt) (step t s)) as (s_i & Hnth & Hskip); [lia|].
      exists s_i. split; [exact Hnth | exact Hskip].
Qed.

Hypothesis step_autonomous : autonomous step.

(** For an autonomous stepper the starting time is immaterial. *)
Lemma orbit_autonomous (n : nat) :
  forall t t' s, orbit step dt n t s = orbit step dt n t' s.
Proof.
  induction n as [|n IH]; intros t t' s; simpl; [reflexivity|].
  rewrite (step_autonomous t t' s). f_equal. apply IH.
Qed.

End Orbit.

Lemma state3_point3 (s : Vec3) : state3 (point3 s) = s.
Proof. destruct s as [[s_0 s_1] s_2]. reflexivity. Qed.

Lemma state2_point2 (s : Vec2) : state2 (point2 s) = s.
Proof. destruct s as [s_0 s_1]. reflexivity. Qed.

Section Trajectory.

Context {St : Type}.
Variable step : number -> St -> St.
Variable mk : St -> THREE.Vector3.
Variable dt : number.

Lemma trajectory_length (n : nat) (s0 : St) :
  length (trajectory step mk dt n s0) = S n.
Proof.
  unfold trajectory. simpl. now rewrite length_map, orbit_length.
Qed.

Lemma trajectory_as_map (n : nat) (s0 : St) :
  trajectory step mk dt n s0 = map mk (s0 :: orbit step dt n 0 s0).
Proof. reflexivity. Qed.

Lemma trajectory_head (n : nat) (s0 : St) :
  nth_error (trajectory step mk dt n s0) 0 = Some (mk s0).
Proof. reflexivity. Qed.

Lemma trajectory_zero_steps (s0 : St) :
  trajectory step mk dt 0 s0 = [mk s0].
Proof. reflexivity. Qed.

Hypothesis step_autonomous : autonomous step.

Lemma trajectory_nth_succ (n i : nat) (s0 : St) (t : number) :
  (i < n)%nat ->
  exists prev,
    nth_error (trajectory step mk dt n s0) i = Some (mk prev)
    /\ nth_error (trajectory step mk dt n s0) (S i)
       = Some (mk (step t prev)).
Proof.
  intros Hi. rewrite trajectory_as_map.
  destruct (orbit_nth_succ step dt n i 0 s0 Hi) as (prev & Hprev & Hcur).
  exists prev. rewrite !nth_error_map, Hprev, Hcur. simpl.
  split; [reflexivity|].
  now rewrite (step_autonomous _ t prev).
Qed.

Lemma trajectory_restart (n i : nat) (s0 : St) :
  (i <= n)%nat ->
  exists s_i,
    nth_error (trajectory step mk dt n s0) i = Some (mk s_i)
    /\ skipn i (trajectory step mk dt n s0)
       = trajectory step mk dt (n - i) s_i.
Proof.
  intros Hi. rewrite trajectory_as_map.
  destruct (orbit_skipn step dt n i 0 s0 Hi) as (s_i & Hnth & Hskip).
  exists s_i. rewrite nth_error_map, Hnth, skipn_map, Hskip. simpl.
  split; [reflexivity|].
  unfold trajectory. do 2 f_equal.
  apply orbit_autonomous, step_autonomous.
Qed.

End Trajectory.

(* ================================================================= *)
(** ** Properties of the solve entry points *)

(** Rewrites a call of a solve function that has fuel enough into the
    trajectory it returns. *)
Ltac run_solver :=
  first
    [ rewrite solveLorenz_run by (simpl; lia)
    | rewrite solveVanDerPol_run by (simpl; lia)
    | rewrite solveDampedPendulum_run by (simpl; lia)
    | rewrite solveRossler_run by (simpl; lia) ];
  cbn [LorenzParams.sigma LorenzParams.rho LorenzParams.beta
       LorenzParams.x0 LorenzParams.y0 LorenzParams.z0
       LorenzParams.dt LorenzParams.steps
       VanDerPolParams.mu VanDerPolParams.x0 VanDerPolParams.y0
       VanDerPolParams.dt VanDerPolParams.steps
       DampedPendulumParams.gamma DampedPendulumParams.omega0
       DampedPendulumParams.theta0 DampedPendulumParams.omegaInit
       DampedPendulumParams.dt DampedPendulumParams.steps
       RosslerParams.a RosslerParams.b RosslerParams.c
       RosslerParams.x0 RosslerParams.y0 RosslerParams.z0
       RosslerParams.dt RosslerParams.steps].

(** C3.  For every non-negative integer [steps], and any parameters, initial
    state and [dt], each of the four solve functions returns a trajectory of
    exactly [steps + 1] points. *)
Theorem trajectory_has_steps_plus_one_points :
  (forall fuel sigma rho beta x0 y0 z0 dt steps,
      (0 <= steps)%Z -> (Z.to_nat steps <= fuel)%nat ->
      exists traj,
        solveLorenz fuel (LorenzParams.make sigma rho beta x0 y0 z0 dt steps)
        = Some traj
        /\ Z.of_nat (length traj) = (steps + 1)%Z)
  /\
  (forall fuel mu x0 y0 dt steps,
      (0 <= steps)%Z -> (Z.to_nat steps <= fuel)%nat ->
      exists traj,
        solveVanDerPol fuel (VanDerPolParams.make mu x0 y0 dt steps)
        = Some traj
        /\ Z.of_nat (length traj) = (steps + 1)%Z)
  /\
  (forall Math_sin fuel gamma omega0 theta0 omegaInit dt steps,
      (0 <= steps)%Z -> (Z.to_nat steps <= fuel)%nat ->
      exists traj,
        solveDampedPendulum Math_sin fuel
          (DampedPendulumParams.make gamma omega0 theta0 omegaInit dt steps)
        = Some traj
        /\ Z.of_nat (length traj) = (steps + 1)%Z)
  /\
  (forall fuel a b c x0 y0 z0 dt steps,
      (0 <= steps)%Z -> (Z.to_nat steps <= fuel)%nat ->
      exists traj,
        solveRossler fuel (RosslerParams.make a b c x0 y0 z0 dt steps)
        = Some traj
        /\ Z.of_nat (length traj) = (steps + 1)%Z).
Proof.
  split; [|split; [|split]]; intros; run_solver;
    (eexists; split; [reflexivity|]);
    rewrite trajectory_length; lia.
Qed.

Lemma trajectory_has_steps_plus_one_points_witness :
  (exists traj,
      solveLorenz 3 (LorenzParams.make 10 28 (8 / 3) 1 1 1 (1 / 100) 3)
      = Some traj /\ Z.of_nat (length traj) = 4%Z)
  /\ (exists traj,
         solveVanDerPol 3 (VanDerPolParams.make 1 2 0 (1 / 100) 3)
         = Some traj /\ Z.of_nat (length traj) = 4%Z)
  /\ (exists traj,
         solveDampedPendulum (fun theta => theta) 3
           (DampedPendulumParams.make (1 / 2) 2 1 0 (1 / 100) 3)
         = Some traj /\ Z.of_nat (length traj) = 4%Z)
  /\ (exists traj,
         solveRossler 3 (RosslerParams.make (1 / 5) (1 / 5) 6 1 1 1 (1 / 100) 3)
         = Some traj /\ Z.of_nat (length traj) = 4%Z).
Proof.
  destruct trajectory_has_steps_plus_one_points as (HL & HV & HP & HR).
  split; [|split; [|split]].
  - apply (HL 3%nat 10 28 (8 / 3) 1 1 1 (1 / 100) 3%Z); [lia | simpl; lia].
  - apply (HV 3%nat 1 2 0 (1 / 100) 3%Z); [lia | simpl; lia].
  - apply (HP (fun theta => theta) 3%nat (1 / 2) 2 1 0 (1 / 100) 3%Z);
      [lia | simpl; lia].
  - apply (HR 3%nat (1 / 5) (1 / 5) 6 1 1 1 (1 / 100) 3%Z); [lia | simpl; lia].
Defined.

(** C4.  For every call of a solve function the first point of the returned
    trajectory is the supplied initial state: [(x0, y0, z0)] for
    [solveLorenz] and [solveRossler], [(x0, y0, 0)] for [solveVanDerPol] and
    [(theta0, omegaInit, 0)] for [solveDampedPendulum]. *)
Theorem trajectory_starts_at_initial_state :
  (forall fuel sigma rho beta x0 y0 z0 dt steps,
      (Z.to_nat steps <= fuel)%nat ->
      exists traj,
        solveLorenz fuel (LorenzParams.make sigma rho beta x0 y0 z0 dt steps)
        = Some traj
        /\ nth_error traj 0 = Some (THREE.new_Vector3 x0 y0 z0))
  /\
  (forall fuel mu x0 y0 dt steps,
      (Z.to_nat steps <= fuel)%nat ->
      exists traj,
        solveVanDerPol fuel (VanDerPolParams.make mu x0 y0 dt steps)
        = Some traj
        /\ nth_error traj 0 = Some (THREE.new_Vector3 x0 y0 0))
  /\
  (forall Math_sin fuel gamma omega0 theta0 omegaInit dt steps,
      (Z.to_nat steps <= fuel)%nat ->
      exists traj,
        solveDampedPendulum Math_sin fuel
          (DampedPendulumParams.make gamma omega0 theta0 omegaInit dt steps)
        = Some traj
        /\ nth_error traj 0 = Some (THREE.new_Vector3 theta0 omegaInit 0))
  /\
  (forall fuel a b c x0 y0 z0 dt steps,
      (Z.to_nat steps <= fuel)%nat ->
      exists traj,
        solveRossler fuel (RosslerParams.make a b c x0 y0 z0 dt steps)
        = Some traj
        /\ nth_error traj 0 = Some (THREE.new_Vector3 x0 y0 z0)).
Proof.
  split; [|split; [|split]]; intros; run_solver;
    (eexists; split; reflexivity).
Qed.

Lemma trajectory_starts_at_initial_state_witness :
  (exists traj,
      solveLorenz 2 (LorenzParams.make 10 28 (8 / 3) 1 1 1 (1 / 100) 2)
      = Some traj /\ nth_error traj 0 = Some (THREE.new_Vector3 1 1 1))
  /\ (exists traj,
         solveVanDerPol 2 (VanDerPolParams.make 1 2 0 (1 / 100) 2)
         = Some traj /\ nth_error traj 0 = Some (THREE.new_Vector3 2 0 0))
  /\ (exists traj,
         solveDampedPendulum (fun theta => theta) 2
           (DampedPendulumParams.make (1 / 2) 2 1 0 (1 / 100) 2)
         = Some traj /\ nth_error traj 0 = Some (THREE.new_Vector3 1 0 0))
  /\ (exists traj,
         solveRossler 2 (RosslerParams.make (1 / 5) (1 / 5) 6 1 1 1 (1 / 100) 2)
         = Some traj /\ nth_error traj 0 = Some (THREE.new_Vector3 1 1 1)).
Proof.
  destruct trajectory_starts_at_initial_state as (HL & HV & HP & HR).
  split; [|split; [|split]].
  - apply (HL 2%nat 10 28 (8 / 3) 1 1 1 (1 / 100) 2%Z); simpl; lia.
  - apply (HV 2%nat 1 2 0 (1 / 100) 2%Z); simpl; lia.
  - apply (HP (fun theta => theta) 2%nat (1 / 2) 2 1 0 (1 / 100) 2%Z);
      simpl; lia.
  - apply (HR 2%nat (1 / 5) (1 / 5) 6 1 1 1 (1 / 100) 2%Z); simpl; lia.
Defined.

(** C5.  For every system, every non-negative [steps] and every [i] with
    [1 <= i <= steps], point [i] of the returned trajectory is the RK4 step
    applied to point [i - 1] with the system's derivative function, step
    size [dt] and time argument [(i - 1) * dt].  (The loop itself passes the
    time it has accumulated by repeated addition of [dt]; the four
    derivative functions ignore the time, so the step is the same.) *)
Theorem trajectory_point_is_rk4_step_of_previous :
  (forall fuel sigma rho beta x0 y0 z0 dt steps i,
      (1 <= i <= steps)%Z -> (Z.to_nat steps <= fuel)%nat ->
      exists traj prev cur,
        solveLorenz fuel (LorenzParams.make sigma rho beta x0 y0 z0 dt steps)
        = Some traj
        /\ nth_error traj (Z.to_nat (i - 1)) = Some prev
        /\ nth_error traj (Z.to_nat i) = Some cur
        /\ cur = point3 (rk4Step3D (lorenzDerivative sigma rho beta)
                           (ofZ (i - 1) * dt) (state3 prev) dt))
  /\
  (forall fuel mu x0 y0 dt steps i,
      (1 <= i <= steps)%Z -> (Z.to_nat steps <= fuel)%nat ->
      exists traj prev cur,
        solveVanDerPol fuel (VanDerPolParams.make mu x0 y0 dt steps)
        = Some traj
        /\ nth_error traj (Z.to_nat (i - 1)) = Some prev
        /\ nth_error traj (Z.to_nat i) = Some cur
        /\ cur = point2 (rk4Step2D (vanDerPolDerivative mu)
                           (ofZ (i - 1) * dt) (state2 prev) dt))
  /\
  (forall Math_sin fuel gamma omega0 theta0 omegaInit dt steps i,
      (1 <= i <= steps)%Z -> (Z.to_nat steps <= fuel)%nat ->
      exists traj prev cur,
        solveDampedPendulum Math_sin fuel
          (DampedPendulumParams.make gamma omega0 theta0 omegaInit dt steps)
        = Some traj
        /\ nth_error traj (Z.to_nat (i - 1)) = Some prev
        /\ nth_error traj (Z.to_nat i) = Some cur
        /\ cur = point2 (rk4Step2D
                           (dampedPendulumDerivative Math_sin gamma omega0)
                           (ofZ (i - 1) * dt) (state2 prev) dt))
  /\
  (forall fuel a b c x0 y0 z0 dt steps i,
      (1 <= i <= steps)%Z -> (Z.to_nat steps <= fuel)%nat ->
      exists traj prev cur,
        solveRossler fuel (RosslerParams.make a b c x0 y0 z0 dt steps)
        = Some traj
        /\ nth_error traj (Z.to_nat (i - 1)) = Some prev
        /\ nth_error traj (Z.to_nat i) = Some cur
        /\ cur = point3 (rk4Step3D (rosslerDerivative a b c)
                           (ofZ (i - 1) * dt) (state3 prev) dt)).
Proof.
  split; [|split; [|split]]; intros; run_solver.
  - destruct (trajectory_nth_succ
                (step3D (lorenzDerivative sigma rho beta) dt) point3 dt
                (step3D_autonomous _ _ (lorenzDerivative_autonomous _ _ _))
                (Z.to_nat steps) (Z.to_nat (i - 1)) (x0, y0, z0)
                (ofZ (i - 1) * dt))
      as (prev & Hprev & Hcur); [lia|].
    replace (S (Z.to_nat (i - 1))) with (Z.to_nat i) in Hcur by lia.
    eexists _, (point3 prev), _.
    split; [reflexivity|]. split; [exact Hprev|]. split; [exact Hcur|].
    now rewrite state3_point3.
  - destruct (trajectory_nth_succ
                (step2D (vanDerPolDerivative mu) dt) point2 dt
                (step2D_autonomous _ _ (vanDerPolDerivative_autonomous _))
                (Z.to_nat steps) (Z.to_nat (i - 1)) (x0, y0)
                (ofZ (i - 1) * dt))
      as (prev & Hprev & Hcur); [lia|].
    replace (S (Z.to_nat (i - 1))) with (Z.to_nat i) in Hcur by lia.
    eexists _, (point2 prev), _.
    split; [reflexivity|]. split; [exact Hprev|]. split; [exact Hcur|].
    now rewrite state2_point2.
  - destruct (trajectory_nth_succ
                (step2D (dampedPendulumDerivative Math_sin gamma omega0) dt)
                point2 dt
                (step2D_autonomous _ _
                   (dampedPendulumDerivative_autonomous _ _ _))
                (Z.to_nat steps) (Z.to_nat (i - 1)) (theta0, omegaInit)
                (ofZ (i - 1) * dt))
      as (prev & Hprev & Hcur); [lia|].
    replace (S (Z.to_nat (i - 1))) with (Z.to_nat i) in Hcur by lia.
    eexists _, (point2 prev), _.
    split; [reflexivity|]. split; [exact Hprev|]. split; [exact Hcur|].
    now rewrite state2_point2.
  - destruct (trajectory_nth_succ
                (step3D (rosslerDerivative a b c) dt) point3 dt
                (step3D_autonomous _ _ (rosslerDerivative_autonomous _ _ _))
                (Z.to_nat steps) (Z.to_nat (i - 1)) (x0, y0, z0)
                (ofZ (i - 1) * dt))
      as (prev & Hprev & Hcur); [lia|].
    replace (S (Z.to_nat (i - 1))) with (Z.to_nat i) in Hcur by lia.
    eexists _, (point3 prev), _.
    split; [reflexivity|]. split; [exact Hprev|]. split; [exact Hcur|].
    now rewrite state3_point3.
Qed.

Lemma trajectory_point_is_rk4_step_of_previous_witness :
  (exists traj prev cur,
      solveLorenz 2 (LorenzParams.make 10 28 (8 / 3) 1 1 1 (1 / 100) 2)
      = Some traj
      /\ nth_error traj 1 = Some prev
      /\ nth_error traj 2 = Some cur
      /\ cur = point3 (rk4Step3D (lorenzDerivative 10 28 (8 / 3))
                         (1 * (1 / 100)) (state3 prev) (1 / 100)))
  /\ (exists traj prev cur,
         solveVanDerPol 2 (VanDerPolParams.make 1 2 0 (1 / 100) 2)
         = Some traj
         /\ nth_error traj 1 = Some prev
         /\ nth_error traj 2 = Some cur
         /\ cur = point2 (rk4Step2D (vanDerPolDerivative 1)
                            (1 * (1 / 100)) (state2 prev) (1 / 100)))
  /\ (exists traj prev cur,
         solveDampedPendulum (fun theta => theta) 2
           (DampedPendulumParams.make (1 / 2) 2 1 0 (1 / 100) 2)
         = Some traj
         /\ nth_error traj 1 = Some prev
         /\ nth_error traj 2 = Some cur
         /\ cur = point2 (rk4Step2D
                            (dampedPendulumDerivative (fun theta => theta)
                               (1 / 2) 2)
                            (1 * (1 / 100)) (state2 prev) (1 / 100)))
  /\ (exists traj prev cur,
         solveRossler 2 (RosslerParams.make (1 / 5) (1 / 5) 6 1 1 1 (1 / 100) 2)
         = Some traj
         /\ nth_error traj 1 = Some prev
         /\ nth_error traj 2 = Some cur
         /\ cur = point3 (rk4Step3D (rosslerDerivative (1 / 5) (1 / 5) 6)
                            (1 * (1 / 100)) (state3 prev) (1 / 100))).
Proof.
  destruct trajectory_point_is_rk4_step_of_previous as (HL & HV & HP & HR).
  split; [|split; [|split]].
  - apply (HL 2%nat 10 28 (8 / 3) 1 1 1 (1 / 100) 2%Z 2%Z); simpl; lia.
  - apply (HV 2%nat 1 2 0 (1 / 100) 2%Z 2%Z); simpl; lia.
  - apply (HP (fun theta => theta) 2%nat (1 / 2) 2 1 0 (1 / 100) 2%Z 2%Z);
      simpl; lia.
  - apply (HR 2%nat (1 / 5) (1 / 5) 6 1 1 1 (1 / 100) 2%Z 2%Z); simpl; lia.
Defined.

(** The loop needs one unit of fuel per iteration: with less than [steps]
    it has not finished. *)
Lemma return_points_out_of_fuel {St : Type}
    (body : St * number * list THREE.Vector3
            -> St * number * list THREE.Vector3)
    (fuel : nat) (steps : Z) (x : St * number * list THREE.Vector3) :
  (fuel < Z.to_nat steps)%nat ->
  return_points (for_loop fuel 0%Z steps body x) = None.
Proof.
  intros Hlt. rewrite for_loop_out_of_fuel; [reflexivity|].
  now rewrite Z.sub_0_r.
Qed.

(** C6.  Every solve entry point is total: for all parameters and initial
    states, finite or not, every [dt], zero and negative included, and every
    non-negative integer [steps], the loop ends after exactly [steps]
    iterations and the call returns a trajectory of [steps + 1] points.
    There is no failure value, no input is rejected and the loop never
    stops early, whatever values arise on the way. *)
Theorem solve_is_total :
  (forall sigma rho beta x0 y0 z0 dt steps,
      (0 <= steps)%Z ->
      exists traj,
        Z.of_nat (length traj) = (steps + 1)%Z
        /\ forall fuel,
            solveLorenz fuel (LorenzParams.make sigma rho beta x0 y0 z0 dt steps)
            = if (Z.to_nat steps <=? fuel)%nat then Some traj else None)
  /\
  (forall mu x0 y0 dt steps,
      (0 <= steps)%Z ->
      exists traj,
        Z.of_nat (length traj) = (steps + 1)%Z
        /\ forall fuel,
            solveVanDerPol fuel (VanDerPolParams.make mu x0 y0 dt steps)
            = if (Z.to_nat steps <=? fuel)%nat then Some traj else None)
  /\
  (forall Math_sin gamma omega0 theta0 omegaInit dt steps,
      (0 <= steps)%Z ->
      exists traj,
        Z.of_nat (length traj) = (steps + 1)%Z
        /\ forall fuel,
            solveDampedPendulum Math_sin fuel
              (DampedPendulumParams.make gamma omega0 theta0 omegaInit dt steps)
            = if (Z.to_nat steps <=? fuel)%nat then Some traj else None)
  /\
  (forall a b c x0 y0 z0 dt steps,
      (0 <= steps)%Z ->
      exists traj,
        Z.of_nat (length traj) = (steps + 1)%Z
        /\ forall fuel,
            solveRossler fuel (RosslerParams.make a b c x0 y0 z0 dt steps)
            = if (Z.to_nat steps <=? fuel)%nat then Some traj else None).
Proof.
  split; [|split; [|split]]; intros;
    (eexists; split;
     [| intros fuel; destruct (Nat.leb_spec (Z.to_nat steps) fuel) as [Hle|Hlt];
        [ run_solver; reflexivity
        | apply return_points_out_of_fuel; exact Hlt ] ]);
    rewrite trajectory_length; lia.
Qed.

Lemma solve_is_total_witness :
  (exists traj,
      Z.of_nat (length traj) = 3%Z
      /\ forall fuel,
          solveLorenz fuel
            (LorenzParams.make 10 28 (8 / 3) NaN 1 1 (- (1 / 100)) 2)
          = if (2 <=? fuel)%nat then Some traj else None)
  /\ (exists traj,
         Z.of_nat (length traj) = 3%Z
         /\ forall fuel,
             solveVanDerPol fuel (VanDerPolParams.make 1 2 0 0 2)
             = if (2 <=? fuel)%nat then Some traj else None)
  /\ (exists traj,
         Z.of_nat (length traj) = 3%Z
         /\ forall fuel,
             solveDampedPendulum (fun theta => theta) fuel
               (DampedPendulumParams.make (1 / 2) 2 (1 / 0) 0 (1 / 100) 2)
             = if (2 <=? fuel)%nat then Some traj else None)
  /\ (exists traj,
         Z.of_nat (length traj) = 3%Z
         /\ forall fuel,
             solveRossler fuel
               (RosslerParams.make (1 / 5) (1 / 5) 6 1 1 1 (1 / 100) 2)
             = if (2 <=? fuel)%nat then Some traj else None).
Proof.
  destruct solve_is_total as (HL & HV & HP & HR).
  split; [|split; [|split]].
  - apply (HL 10 28 (8 / 3) NaN 1 1 (- (1 / 100)) 2%Z); lia.
  - apply (HV 1 2 0 0 2%Z); lia.
  - apply (HP (fun theta => theta) (1 / 2) 2 (1 / 0) 0 (1 / 100) 2%Z); lia.
  - apply (HR (1 / 5) (1 / 5) 6 1 1 1 (1 / 100) 2%Z); lia.
Defined.

Lemma trajectory_point2_flat (step : number -> Vec2 -> Vec2) (dt : number)
    (n : nat) (s0 : Vec2) :
  Forall (fun p => THREE.z p = 0) (trajectory step point2 dt n s0).
Proof.
  rewrite trajectory_as_map. apply Forall_map, Forall_forall.
  intros [s_0 s_1] _. reflexivity.
Qed.

(** C7.  For every call of [solveVanDerPol] or [solveDampedPendulum], with
    any parameters, initial state, [dt] and [steps], every point of the
    returned trajectory has third coordinate exactly [0]: the trailing zero
    is given to every point alike. *)
Theorem planar_systems_have_zero_third_coordinate :
  (forall fuel mu x0 y0 dt steps,
      (Z.to_nat steps <= fuel)%nat ->
      exists traj,
        solveVanDerPol fuel (VanDerPolParams.make mu x0 y0 dt steps)
        = Some traj
        /\ Forall (fun p => THREE.z p = 0) traj)
  /\
  (forall Math_sin fuel gamma omega0 theta0 omegaInit dt steps,
      (Z.to_nat steps <= fuel)%nat ->
      exists traj,
        solveDampedPendulum Math_sin fuel
          (DampedPendulumParams.make gamma omega0 theta0 omegaInit dt steps)
        = Some traj
        /\ Forall (fun p => THREE.z p = 0) traj).
Proof.
  split; intros; run_solver;
    (eexists; split; [reflexivity | apply trajectory_point2_flat]).
Qed.

Lemma planar_systems_have_zero_third_coordinate_witness :
  (exists traj,
      solveVanDerPol 3 (VanDerPolParams.make 1 2 0 (1 / 100) 3) = Some traj
      /\ Forall (fun p => THREE.z p = 0) traj)
  /\ (exists traj,
         solveDampedPendulum (fun theta => theta) 3
           (DampedPendulumParams.make (1 / 2) 2 1 0 (1 / 100) 3)
         = Some traj
         /\ Forall (fun p => THREE.z p = 0) traj).
Proof.
  destruct planar_systems_have_zero_third_coordinate as (HV & HP).
  split.
  - apply (HV 3%nat 1 2 0 (1 / 100) 3%Z); simpl; lia.
  - apply (HP (fun theta => theta) 3%nat (1 / 2) 2 1 0 (1 / 100) 3%Z);
      simpl; lia.
Defined.

(** C9.  For every negative [steps] each of the four solve functions
    returns the trajectory made of the initial point alone, and no fuel is
    spent: the loop body is never run. *)
Theorem negative_steps_give_initial_point_only :
  (forall fuel sigma rho beta x0 y0 z0 dt steps,
      (steps < 0)%Z ->
      solveLorenz fuel (LorenzParams.make sigma rho beta x0 y0 z0 dt steps)
      = Some [THREE.new_Vector3 x0 y0 z0])
  /\
  (forall fuel mu x0 y0 dt steps,
      (steps < 0)%Z ->
      solveVanDerPol fuel (VanDerPolParams.make mu x0 y0 dt steps)
      = Some [THREE.new_Vector3 x0 y0 0])
  /\
  (forall Math_sin fuel gamma omega0 theta0 omegaInit dt steps,
      (steps < 0)%Z ->
      solveDampedPendulum Math_sin fuel
        (DampedPendulumParams.make gamma omega0 theta0 omegaInit dt steps)
      = Some [THREE.new_Vector3 theta0 omegaInit 0])
  /\
  (forall fuel a b c x0 y0 z0 dt steps,
      (steps < 0)%Z ->
      solveRossler fuel (RosslerParams.make a b c x0 y0 z0 dt steps)
      = Some [THREE.new_Vector3 x0 y0 z0]).
Proof.
  split; [|split; [|split]]; intros; run_solver;
    replace (Z.to_nat steps) with 0%nat by lia; reflexivity.
Qed.

Lemma negative_steps_give_initial_point_only_witness :
  solveLorenz 0 (LorenzParams.make 10 28 (8 / 3) 1 1 1 (1 / 100) (-5))
  = Some [THREE.new_Vector3 1 1 1]
  /\ solveVanDerPol 0 (VanDerPolParams.make 1 2 0 (1 / 100) (-1))
     = Some [THREE.new_Vector3 2 0 0]
  /\ solveDampedPendulum (fun theta => theta) 0
       (DampedPendulumParams.make (1 / 2) 2 1 0 (1 / 100) (-3))
     = Some [THREE.new_Vector3 1 0 0]
  /\ solveRossler 7 (RosslerParams.make (1 / 5) (1 / 5) 6 1 1 1 (1 / 100) (-2))
     = Some [THREE.new_Vector3 1 1 1].
Proof.
  destruct negative_steps_give_initial_point_only as (HL & HV & HP & HR).
  split; [|split; [|split]].
  - apply (HL 0%nat 10 28 (8 / 3) 1 1 1 (1 / 100) (-5)%Z); lia.
  - apply (HV 0%nat 1 2 0 (1 / 100) (-1)%Z); lia.
  - apply (HP (fun theta => theta) 0%nat (1 / 2) 2 1 0 (1 / 100) (-3)%Z); lia.
  - apply (HR 7%nat (1 / 5) (1 / 5) 6 1 1 1 (1 / 100) (-2)%Z); lia.
Defined.

(** C10.  Restart: for every system, every non-negative [steps] and every
    index [i] with [0 <= i <= steps], calling the same solve function again
    from point [i] of the trajectory with step count [steps - i], parameters
    and [dt] unchanged, returns exactly the suffix of the trajectory that
    starts at index [i].  The restarted run passes other time values to the
    stepper; they cannot matter, the derivative functions ignore them. *)
Theorem restart_returns_suffix :
  (forall fuel fuel' sigma rho beta x0 y0 z0 dt steps i,
      (0 <= i <= steps)%Z ->
      (Z.to_nat steps <= fuel)%nat -> (Z.to_nat (steps - i) <= fuel')%nat ->
      exists traj p,
        solveLorenz fuel (LorenzParams.make sigma rho beta x0 y0 z0 dt steps)
        = Some traj
        /\ nth_error traj (Z.to_nat i) = Some p
        /\ solveLorenz fuel'
             (LorenzParams.make sigma rho beta
                (THREE.x p) (THREE.y p) (THREE.z p) dt (steps - i))
           = Some (skipn (Z.to_nat i) traj))
  /\
  (forall fuel fuel' mu x0 y0 dt steps i,
      (0 <= i <= steps)%Z ->
      (Z.to_nat steps <= fuel)%nat -> (Z.to_nat (steps - i) <= fuel')%nat ->
      exists traj p,
        solveVanDerPol fuel (VanDerPolParams.make mu x0 y0 dt steps)
        = Some traj
        /\ nth_error traj (Z.to_nat i) = Some p
        /\ solveVanDerPol fuel'
             (VanDerPolParams.make mu (THREE.x p) (THREE.y p) dt (steps - i))
           = Some (skipn (Z.to_nat i) traj))
  /\
  (forall Math_sin fuel fuel' gamma omega0 theta0 omegaInit dt steps i,
      (0 <= i <= steps)%Z ->
      (Z.to_nat steps <= fuel)%nat -> (Z.to_nat (steps - i) <= fuel')%nat ->
      exists traj p,
        solveDampedPendulum Math_sin fuel
          (DampedPendulumParams.make gamma omega0 theta0 omegaInit dt steps)
        = Some traj
        /\ nth_error traj (Z.to_nat i) = Some p
        /\ solveDampedPendulum Math_sin fuel'
             (DampedPendulumParams.make gamma omega0
                (THREE.x p) (THREE.y p) dt (steps - i))
           = Some (skipn (Z.to_nat i) traj))
  /\
  (forall fuel fuel' a b c x0 y0 z0 dt steps i,
      (0 <= i <= steps)%Z ->
      (Z.to_nat steps <= fuel)%nat -> (Z.to_nat (steps - i) <= fuel')%nat ->
      exists traj p,
        solveRossler fuel (RosslerParams.make a b c x0 y0 z0 dt steps)
        = Some traj
        /\ nth_error traj (Z.to_nat i) = Some p
        /\ solveRossler fuel'
             (RosslerParams.make a b c
                (THREE.x p) (THREE.y p) (THREE.z p) dt (steps - i))
           = Some (skipn (Z.to_nat i) traj)).
Proof.
  split; [|split; [|split]]; intros; run_solver.
  - destruct (trajectory_restart
                (step3D (lorenzDerivative sigma rho beta) dt) point3 dt
                (step3D_autonomous _ _ (lorenzDerivative_autonomous _ _ _))
                (Z.to_nat steps) (Z.to_nat i) (x0, y0, z0))
      as ([[s_0 s_1] s_2] & Hnth & Hskip); [lia|].
    eexists _, _. split; [reflexivity|]. split; [exact Hnth|].
    run_solver. rewrite Hskip. simpl point3. cbn [THREE.x THREE.y THREE.z].
    now rewrite Z2Nat.inj_sub by lia.
  - destruct (trajectory_restart
                (step2D (vanDerPolDerivative mu) dt) point2 dt
                (step2D_autonomous _ _ (vanDerPolDerivative_autonomous _))
                (Z.to_nat steps) (Z.to_nat i) (x0, y0))
      as ([s_0 s_1] & Hnth & Hskip); [lia|].
    eexists _, _. split; [reflexivity|]. split; [exact Hnth|].
    run_solver. rewrite Hskip. simpl point2. cbn [THREE.x THREE.y THREE.z].
    now rewrite Z2Nat.inj_sub by lia.
  - destruct (trajectory_restart
                (step2D (dampedPendulumDerivative Math_sin gamma omega0) dt)
                point2 dt
                (step2D_autonomous _ _
                   (dampedPendulumDerivative_autonomous _ _ _))
                (Z.to_nat steps) (Z.to_nat i) (theta0, omegaInit))
      as ([s_0 s_1] & Hnth & Hskip); [lia|].
    eexists _, _. split; [reflexivity|]. split; [exact Hnth|].
    run_solver. rewrite Hskip. simpl point2. cbn [THREE.x THREE.y THREE.z].
    now rewrite Z2Nat.inj_sub by lia.
  - destruct (trajectory_restart
                (step3D (rosslerDerivative a b c) dt) point3 dt
                (step3D_autonomous _ _ (rosslerDerivative_autonomous _ _ _))
                (Z.to_nat steps) (Z.to_nat i) (x0, y0, z0))
      as ([[s_0 s_1] s_2] & Hnth & Hskip); [lia|].
    eexists _, _. split; [reflexivity|]. split; [exact Hnth|].
    run_solver. rewrite Hskip. simpl point3. cbn [THREE.x THREE.y THREE.z].
    now rewrite Z2Nat.inj_sub by lia.
Qed.

Lemma restart_returns_suffix_witness :
  (exists traj p,
      solveLorenz 3 (LorenzParams.make 10 28 (8 / 3) 1 1 1 (1 / 100) 3)
      = Some traj
      /\ nth_error traj 2 = Some p
      /\ solveLorenz 1
           (LorenzParams.make 10 28 (8 / 3)
              (THREE.x p) (THREE.y p) (THREE.z p) (1 / 100) 1)
         = Some (skipn 2 traj))
  /\ (exists traj p,
         solveVanDerPol 3 (VanDerPolParams.make 1 2 0 (1 / 100) 3) = Some traj
         /\ nth_error traj 1 = Some p
         /\ solveVanDerPol 2
              (VanDerPolParams.make 1 (THREE.x p) (THREE.y p) (1 / 100) 2)
            = Some (skipn 1 traj))
  /\ (exists traj p,
         solveDampedPendulum (fun theta => theta) 3
           (DampedPendulumParams.make (1 / 2) 2 1 0 (1 / 100) 3)
         = Some traj
         /\ nth_error traj 3 = Some p
         /\ solveDampedPendulum (fun theta => theta) 0
              (DampedPendulumParams.make (1 / 2) 2
                 (THREE.x p) (THREE.y p) (1 / 100) 0)
            = Some (skipn 3 traj))
  /\ (exists traj p,
         solveRossler 3 (RosslerParams.make (1 / 5) (1 / 5) 6 1 1 1 (1 / 100) 3)
         = Some traj
         /\ nth_error traj 0 = Some p
         /\ solveRossler 3
              (RosslerParams.make (1 / 5) (1 / 5) 6
                 (THREE.x p) (THREE.y p) (THREE.z p) (1 / 100) 3)
            = Some (skipn 0 traj)).
Proof.
  destruct restart_returns_suffix as (HL & HV & HP & HR).
  split; [|split; [|split]].
  - apply (HL 3%nat 1%nat 10 28 (8 / 3) 1 1 1 (1 / 100) 3%Z 2%Z); simpl; lia.
  - apply (HV 3%nat 2%nat 1 2 0 (1 / 100) 3%Z 1%Z); simpl; lia.
  - apply (HP (fun theta => theta) 3%nat 0%nat (1 / 2) 2 1 0 (1 / 100) 3%Z 3%Z);
      simpl; lia.
  - apply (HR 3%nat 3%nat (1 / 5) (1 / 5) 6 1 1 1 (1 / 100) 3%Z 0%Z);
      simpl; lia.
Defined.

(* ================================================================= *)
(** ** A step of size zero *)

Lemma strict_eq_cases (a b : number) :
  strict_eq a b = true ->
  a = b \/ exists s s', a = S754_zero s /\ b = S754_zero s'.
Proof.
  unfold strict_eq, SFeqb, SFcompare.
  destruct a as [sa | sa | | sa ma ea], b as [sb | sb | | sb mb eb];
    try discriminate;
    try (destruct sa; discriminate); try (destruct sb; discriminate).
  - intros _. right. now exists sa, sb.
  - destruct sa, sb; try discriminate; intros _; now left.
  - destruct sa, sb; try discriminate;
      destruct (Z.compare_spec ea eb) as [He | He | He]; try discriminate;
      fold (Pos.compare ma mb);
      destruct (Pos.compare_spec ma mb) as [Hm | Hm | Hm]; try discriminate;
      intros _; subst; now left.
Qed.

Lemma strict_eq_zeros (s s' : bool) :
  strict_eq (S754_zero s) (S754_zero s') = true.
Proof. reflexivity. Qed.

Lemma strict_eq_refl (a : number) : isNaN a = false -> strict_eq a a = true.
Proof.
  unfold strict_eq, SFeqb, SFcompare.
  destruct a as [sa | sa | | sa ma ea]; try reflexivity; try discriminate.
  - destruct sa; reflexivity.
  - intros _. rewrite Z.compare_refl. fold (Pos.compare ma ma).
    rewrite Pos.compare_refl. destruct sa; reflexivity.
Qed.

Lemma strict_eq_trans (a b c : number) :
  strict_eq a b = true -> strict_eq b c = true -> strict_eq a c = true.
Proof.
  intros Hab Hbc.
  destruct (strict_eq_cases a b Hab) as [-> | (s & s' & -> & ->)];
    [exact Hbc|].
  destruct (strict_eq_cases _ c Hbc) as [<- | (u & u' & _ & ->)];
    apply strict_eq_zeros.
Qed.

(** A finite value times a zero is a zero. *)
Lemma mul_zero_r (a : number) (s : bool) :
  isFinite a = true -> exists s', a * S754_zero s = S754_zero s'.
Proof.
  destruct a as [sa | sa | | sa ma ea]; try discriminate; intros _;
    eexists; reflexivity.
Qed.

(** A zero over a non-zero finite value is a zero. *)
Lemma div_zero_l (s sc : bool) (mc : positive) (ec : Z) :
  exists s', S754_zero s / S754_finite sc mc ec = S754_zero s'.
Proof. eexists; reflexivity. Qed.

(** Adding a zero to a finite value leaves it finite and [===] to itself;
    only the sign of a zero can change. *)
Lemma add_zero_r (a : number) (s : bool) :
  isFinite a = true ->
  strict_eq (a + S754_zero s) a = true /\ isFinite (a + S754_zero s) = true.
Proof.
  destruct a as [sa | sa | | sa ma ea]; try discriminate; intros _.
  - destruct sa, s; split; reflexivity.
  - change (S754_finite sa ma ea + S754_zero s) with (S754_finite sa ma ea).
    split; [apply strict_eq_refl|]; reflexivity.
Qed.

(** The increment [w * dt / 6] of a step with [dt] a zero and [w] finite. *)
Lemma increment_dt_zero (y w : number) (sd : bool) :
  isFinite y = true -> isFinite w = true ->
  strict_eq (y + w * S754_zero sd / 6) y = true
  /\ isFinite (y + w * S754_zero sd / 6) = true.
Proof.
  intros Hy Hw.
  destruct (mul_zero_r w sd Hw) as (s' & ->).
  destruct (div_zero_l s' false 6755399441055744 (-50)) as (s'' & Hdiv).
  change (S754_zero s' / 6) with (S754_zero s' / S754_finite false 6755399441055744 (-50)).
  rewrite Hdiv. now apply add_zero_r.
Qed.

Lemma rk4Step3D_weighted_slope (f : DerivativeFn3D) (t : number) (y : Vec3)
    (dt : number) :
  rk4Step3D f t y dt
  = let '(y_0, y_1, y_2) := y in
    let '(w_0, w_1, w_2) := weighted_slope3D f t y dt in
    (y_0 + w_0 * dt / 6, y_1 + w_1 * dt / 6, y_2 + w_2 * dt / 6).
Proof.
  destruct y as [[y_0 y_1] y_2]. unfold rk4Step3D, weighted_slope3D.
  destruct (f t (y_0, y_1, y_2)) as [[k1_0 k1_1] k1_2].
  destruct (f (t + dt / 2) _) as [[k2_0 k2_1] k2_2].
  destruct (f (t + dt / 2) _) as [[k3_0 k3_1] k3_2].
  destruct (f (t + dt) _) as [[k4_0 k4_1] k4_2].
  reflexivity.
Qed.

Lemma rk4Step2D_weighted_slope (f : DerivativeFn2D) (t : number) (y : Vec2)
    (dt : number) :
  rk4Step2D f t y dt
  = let '(y_0, y_1) := y in
    let '(w_0, w_1) := weighted_slope2D f t y dt in
    (y_0 + w_0 * dt / 6, y_1 + w_1 * dt / 6).
Proof.
  destruct y as [y_0 y_1]. unfold rk4Step2D, weighted_slope2D.
  destruct (f t (y_0, y_1)) as [k1_0 k1_1].
  destruct (f (t + dt / 2) _) as [k2_0 k2_1].
  destruct (f (t + dt / 2) _) as [k3_0 k3_1].
  destruct (f (t + dt) _) as [k4_0 k4_1].
  reflexivity.
Qed.

(** With [dt] a zero, a step whose weighted slope sum is finite returns a
    finite state that is [===] to the one it started from. *)
Lemma rk4Step3D_dt_zero (f : DerivativeFn3D) (t : number) (y : Vec3)
    (sd : bool) :
  finite3 y = true ->
  finite3 (weighted_slope3D f t y (S754_zero sd)) = true ->
  state_eq3 (rk4Step3D f t y (S754_zero sd)) y = true
  /\ finite3 (rk4Step3D f t y (S754_zero sd)) = true.
Proof.
  rewrite rk4Step3D_weighted_slope.
  destruct y as [[y_0 y_1] y_2].
  destruct (weighted_slope3D f t _ _) as [[w_0 w_1] w_2].
  unfold finite3, state_eq3. rewrite !andb_true_iff.
  intros [[Hy0 Hy1] Hy2] [[Hw0 Hw1] Hw2].
  destruct (increment_dt_zero y_0 w_0 sd Hy0 Hw0) as [-> ->].
  destruct (increment_dt_zero y_1 w_1 sd Hy1 Hw1) as [-> ->].
  destruct (increment_dt_zero y_2 w_2 sd Hy2 Hw2) as [-> ->].
  auto.
Qed.

Lemma rk4Step2D_dt_zero (f : DerivativeFn2D) (t : number) (y : Vec2)
    (sd : bool) :
  finite2 y = true ->
  finite2 (weighted_slope2D f t y (S754_zero sd)) = true ->
  state_eq2 (rk4Step2D f t y (S754_zero sd)) y = true
  /\ finite2 (rk4Step2D f t y (S754_zero sd)) = true.
Proof.
  rewrite rk4Step2D_weighted_slope.
  destruct y as [y_0 y_1].
  destruct (weighted_slope2D f t _ _) as [w_0 w_1].
  unfold finite2, state_eq2. rewrite !andb_true_iff.
  intros [Hy0 Hy1] [Hw0 Hw1].
  destruct (increment_dt_zero y_0 w_0 sd Hy0 Hw0) as [-> ->].
  destruct (increment_dt_zero y_1 w_1 sd Hy1 Hw1) as [-> ->].
  auto.
Qed.

Lemma state_eq3_trans (s s' s'' : Vec3) :
  state_eq3 s s' = true -> state_eq3 s' s'' = true -> state_eq3 s s'' = true.
Proof.
  destruct s as [[a b] c], s' as [[a' b'] c'], s'' as [[a'' b''] c''].
  unfold state_eq3. rewrite !andb_true_iff.
  intros [[H0 H1] H2] [[H0' H1'] H2'].
  repeat split; eapply strict_eq_trans; eassumption.
Qed.

Lemma state_eq2_trans (s s' s'' : Vec2) :
  state_eq2 s s' = true -> state_eq2 s' s'' = true -> state_eq2 s s'' = true.
Proof.
  destruct s as [a b], s' as [a' b'], s'' as [a'' b''].
  unfold state_eq2. rewrite !andb_true_iff.
  intros [H0 H1] [H0' H1'].
  repeat split; eapply strict_eq_trans; eassumption.
Qed.

Lemma strict_eq_zero_inv (dt : number) :
  strict_eq dt 0 = true -> exists sd, dt = S754_zero sd.
Proof.
  intros H. destruct (strict_eq_cases dt 0 H) as [-> | (s & _ & -> & _)].
  - now exists false.
  - now exists s.
Qed.

Lemma strict_eq_finite_inv (a : number) (s : bool) (m : positive) (e : Z) :
  strict_eq a (S754_finite s m e) = true -> a = S754_finite s m e.
Proof.
  intros H. destruct (strict_eq_cases _ _ H) as [-> | (u & u' & _ & E)];
    [reflexivity | discriminate E].
Qed.

Lemma state_eq3_refl (s : Vec3) : finite3 s = true -> state_eq3 s s = true.
Proof.
  destruct s as [[a b] c]. unfold finite3, state_eq3.
  rewrite !andb_true_iff. intros [[Ha Hb] Hc].
  repeat split; apply strict_eq_refl;
    [destruct a | destruct b | destruct c]; trivial; discriminate.
Qed.

Lemma state_eq2_refl (s : Vec2) : finite2 s = true -> state_eq2 s s = true.
Proof.
  destruct s as [a b]. unfold finite2, state_eq2.
  rewrite !andb_true_iff. intros [Ha Hb].
  split; apply strict_eq_refl; [destruct a | destruct b]; trivial; discriminate.
Qed.

Lemma point_eq_point3 (s s' : Vec3) :
  point_eq (point3 s) (point3 s') = state_eq3 s s'.
Proof. destruct s as [[a b] c], s' as [[a' b'] c']. reflexivity. Qed.

Lemma point_eq_point2 (s s' : Vec2) :
  point_eq (point2 s) (point2 s') = state_eq2 s s'.
Proof.
  destruct s as [a b], s' as [a' b']. unfold point_eq, point2, state_eq2.
  cbn [THREE.x THREE.y THREE.z].
  change (strict_eq 0 0) with true. now rewrite andb_true_r.
Qed.

Section ZeroStep.

Variable sd : bool.
Let dt : number := S754_zero sd.

(** While the weighted slope sum stays finite, a loop that steps by zero
    stays at states [===] to the one it started from. *)
Lemma orbit3D_dt_zero (f : DerivativeFn3D) (s0 : Vec3) (n : nat) :
  (forall t s, state_eq3 s s0 = true ->
               finite3 (weighted_slope3D f t s dt) = true) ->
  forall t s,
    state_eq3 s s0 = true -> finite3 s = true ->
    Forall (fun s' => state_eq3 s' s0 = true) (orbit (step3D f dt) dt n t s).
Proof.
  intros Hslope. induction n as [|n IH]; intros t s Heq Hfin; simpl.
  - constructor.
  - destruct (rk4Step3D_dt_zero f t s sd Hfin (Hslope t s Heq))
      as [Hstep Hfin'].
    assert (Heq' : state_eq3 (step3D f dt t s) s0 = true)
      by (eapply state_eq3_trans; [exact Hstep | exact Heq]).
    constructor; [exact Heq' | apply IH; [exact Heq' | exact Hfin']].
Qed.

Lemma orbit2D_dt_zero (f : DerivativeFn2D) (s0 : Vec2) (n : nat) :
  (forall t s, state_eq2 s s0 = true ->
               finite2 (weighted_slope2D f t s dt) = true) ->
  forall t s,
    state_eq2 s s0 = true -> finite2 s = true ->
    Forall (fun s' => state_eq2 s' s0 = true) (orbit (step2D f dt) dt n t s).
Proof.
  intros Hslope. induction n as [|n IH]; intros t s Heq Hfin; simpl.
  - constructor.
  - destruct (rk4Step2D_dt_zero f t s sd Hfin (Hslope t s Heq))
      as [Hstep Hfin'].
    assert (Heq' : state_eq2 (step2D f dt t s) s0 = true)
      by (eapply state_eq2_trans; [exact Hstep | exact Heq]).
    constructor; [exact Heq' | apply IH; [exact Heq' | exact Hfin']].
Qed.

Lemma trajectory3D_dt_zero (f : DerivativeFn3D) (s0 : Vec3) (n : nat) :
  finite3 s0 = true ->
  (forall t s, state_eq3 s s0 = true ->
               finite3 (weighted_slope3D f t s dt) = true) ->
  Forall (fun p => point_eq p (point3 s0) = true)
         (trajectory (step3D f dt) point3 dt n s0).
Proof.
  intros Hfin Hslope. rewrite trajectory_as_map. apply Forall_map.
  assert (Hrefl := state_eq3_refl s0 Hfin).
  constructor.
  - now rewrite point_eq_point3.
  - eapply Forall_impl; [| exact (orbit3D_dt_zero f s0 n Hslope 0 s0 Hrefl Hfin)].
    intros s Hs. now rewrite point_eq_point3.
Qed.

Lemma trajectory2D_dt_zero (f : DerivativeFn2D) (s0 : Vec2) (n : nat) :
  finite2 s0 = true ->
  (forall t s, state_eq2 s s0 = true ->
               finite2 (weighted_slope2D f t s dt) = true) ->
  Forall (fun p => point_eq p (point2 s0) = true)
         (trajectory (step2D f dt) point2 dt n s0).
Proof.
  intros Hfin Hslope. rewrite trajectory_as_map. apply Forall_map.
  assert (Hrefl := state_eq2_refl s0 Hfin).
  constructor.
  - now rewrite point_eq_point2.
  - eapply Forall_impl; [| exact (orbit2D_dt_zero f s0 n Hslope 0 s0 Hrefl Hfin)].
    intros s Hs. now rewrite point_eq_point2.
Qed.

End ZeroStep.

(** C8, as the code has it.  With [dt === 0] and a finite initial state,
    every one of the [steps + 1] points of the trajectory is [===] to the
    initial point in each coordinate, provided the weighted slope sum
    [k1 + 2*k2 + 2*k3 + k4] of a step from the initial state is finite in
    each coordinate (for a zero coordinate of the initial state, at either
    sign of the zero).  Finite parameters and a finite initial state do not
    ensure this: a derivative may overflow, and an infinity times zero is
    NaN. *)
Theorem zero_step_trajectory_is_constant :
  (forall fuel sigma rho beta x0 y0 z0 dt steps,
      (0 <= steps)%Z -> (Z.to_nat steps <= fuel)%nat ->
      strict_eq dt 0 = true ->
      finite3 (x0, y0, z0) = true ->
      (forall t s,
          state_eq3 s (x0, y0, z0) = true ->
          finite3 (weighted_slope3D (lorenzDerivative sigma rho beta) t s dt)
          = true) ->
      exists traj,
        solveLorenz fuel (LorenzParams.make sigma rho beta x0 y0 z0 dt steps)
        = Some traj
        /\ Z.of_nat (length traj) = (steps + 1)%Z
        /\ Forall (fun p => point_eq p (THREE.new_Vector3 x0 y0 z0) = true)
                  traj)
  /\
  (forall fuel mu x0 y0 dt steps,
      (0 <= steps)%Z -> (Z.to_nat steps <= fuel)%nat ->
      strict_eq dt 0 = true ->
      finite2 (x0, y0) = true ->
      (forall t s,
          state_eq2 s (x0, y0) = true ->
          finite2 (weighted_slope2D (vanDerPolDerivative mu) t s dt) = true) ->
      exists traj,
        solveVanDerPol fuel (VanDerPolParams.make mu x0 y0 dt steps)
        = Some traj
        /\ Z.of_nat (length traj) = (steps + 1)%Z
        /\ Forall (fun p => point_eq p (THREE.new_Vector3 x0 y0 0) = true)
                  traj)
  /\
  (forall Math_sin fuel gamma omega0 theta0 omegaInit dt steps,
      (0 <= steps)%Z -> (Z.to_nat steps <= fuel)%nat ->
      strict_eq dt 0 = true ->
      finite2 (theta0, omegaInit) = true ->
      (forall t s,
          state_eq2 s (theta0, omegaInit) = true ->
          finite2 (weighted_slope2D
                     (dampedPendulumDerivative Math_sin gamma omega0) t s dt)
          = true) ->
      exists traj,
        solveDampedPendulum Math_sin fuel
          (DampedPendulumParams.make gamma omega0 theta0 omegaInit dt steps)
        = Some traj
        /\ Z.of_nat (length traj) = (steps + 1)%Z
        /\ Forall (fun p =>
                     point_eq p (THREE.new_Vector3 theta0 omegaInit 0) = true)
                  traj)
  /\
  (forall fuel a b c x0 y0 z0 dt steps,
      (0 <= steps)%Z -> (Z.to_nat steps <= fuel)%nat ->
      strict_eq dt 0 = true ->
      finite3 (x0, y0, z0) = true ->
      (forall t s,
          state_eq3 s (x0, y0, z0) = true ->
          finite3 (weighted_slope3D (rosslerDerivative a b c) t s dt) = true) ->
      exists traj,
        solveRossler fuel (RosslerParams.make a b c x0 y0 z0 dt steps)
        = Some traj
        /\ Z.of_nat (length traj) = (steps + 1)%Z
        /\ Forall (fun p => point_eq p (THREE.new_Vector3 x0 y0 z0) = true)
                  traj).
Proof.
  split; [|split; [|split]];
    intros until steps; intros Hsteps Hfuel Hdt Hfin Hslope;
    destruct (strict_eq_zero_inv dt Hdt) as (sd & ->);
    run_solver; (eexists; split; [reflexivity|]);
    (split; [rewrite trajectory_length; lia|]).
  - exact (trajectory3D_dt_zero sd _ (x0, y0, z0) _ Hfin Hslope).
  - exact (trajectory2D_dt_zero sd _ (x0, y0) _ Hfin Hslope).
  - exact (trajectory2D_dt_zero sd _ (theta0, omegaInit) _ Hfin Hslope).
  - exact (trajectory3D_dt_zero sd _ (x0, y0, z0) _ Hfin Hslope).
Qed.

Lemma zero_step_trajectory_is_constant_witness :
  (exists traj,
      solveLorenz 3 (LorenzParams.make 10 28 (8 / 3) 1 1 1 0 3) = Some traj
      /\ Z.of_nat (length traj) = 4%Z
      /\ Forall (fun p => point_eq p (THREE.new_Vector3 1 1 1) = true) traj)
  /\ (exists traj,
         solveVanDerPol 3 (VanDerPolParams.make 1 2 0 neg_zero 3) = Some traj
         /\ Z.of_nat (length traj) = 4%Z
         /\ Forall (fun p => point_eq p (THREE.new_Vector3 2 0 0) = true) traj)
  /\ (exists traj,
         solveDampedPendulum (fun theta => theta) 3
           (DampedPendulumParams.make (1 / 2) 2 1 0 0 3)
         = Some traj
         /\ Z.of_nat (length traj) = 4%Z
         /\ Forall (fun p => point_eq p (THREE.new_Vector3 1 0 0) = true) traj)
  /\ (exists traj,
         solveRossler 3 (RosslerParams.make (1 / 5) (1 / 5) 6 1 1 1 0 3)
         = Some traj
         /\ Z.of_nat (length traj) = 4%Z
         /\ Forall (fun p => point_eq p (THREE.new_Vector3 1 1 1) = true) traj).
Proof.
  destruct zero_step_trajectory_is_constant as (HL & HV & HP & HR).
  split; [|split; [|split]].
  - apply (HL 3%nat 10 28 (8 / 3) 1 1 1 0 3%Z);
      [lia | simpl; lia | reflexivity | reflexivity |].
    intros t [[s_0 s_1] s_2] H. unfold state_eq3 in H.
    apply andb_true_iff in H as [H H2]. apply andb_true_iff in H as [H0 H1].
    apply strict_eq_finite_inv in H0, H1, H2. subst.
    vm_compute. reflexivity.
  - apply (HV 3%nat 1 2 0 neg_zero 3%Z);
      [lia | simpl; lia | reflexivity | reflexivity |].
    intros t [s_0 s_1] H. unfold state_eq2 in H.
    apply andb_true_iff in H as [H0 H1].
    apply strict_eq_finite_inv in H0.
    apply strict_eq_zero_inv in H1 as [sign ->]. subst.
    destruct sign; vm_compute; reflexivity.
  - apply (HP (fun theta => theta) 3%nat (1 / 2) 2 1 0 0 3%Z);
      [lia | simpl; lia | reflexivity | reflexivity |].
    intros t [s_0 s_1] H. unfold state_eq2 in H.
    apply andb_true_iff in H as [H0 H1].
    apply strict_eq_finite_inv in H0.
    apply strict_eq_zero_inv in H1 as [sign ->]. subst.
    destruct sign; vm_compute; reflexivity.
  - apply (HR 3%nat (1 / 5) (1 / 5) 6 1 1 1 0 3%Z);
      [lia | simpl; lia | reflexivity | reflexivity |].
    intros t [[s_0 s_1] s_2] H. unfold state_eq3 in H.
    apply andb_true_iff in H as [H H2]. apply andb_true_iff in H as [H0 H1].
    apply strict_eq_finite_inv in H0, H1, H2. subst.
    vm_compute. reflexivity.
Defined.

(** C8 as stated fails.  All inputs below are finite doubles and [dt] is
    [0], yet the second point of each trajectory is not the initial point:
    a derivative overflows to an infinity (the product [x*y] for Lorenz,
    [x*x] for Van der Pol, [omega0*omega0] for the pendulum, [z*(x - c)] for
    Roessler), the stepper multiplies it by [dt = 0], and the NaN that
    results is added to the state. *)
Lemma zero_step_overflow_counterexample :
  (finite3 (10, 28, 8 / 3) = true
   /\ finite3 (two_pow_600, two_pow_600, 0) = true
   /\ solveLorenz 1
        (LorenzParams.make 10 28 (8 / 3) two_pow_600 two_pow_600 0 0 1)
      = Some [THREE.new_Vector3 two_pow_600 two_pow_600 0;
              THREE.new_Vector3 NaN NaN NaN]
   /\ THREE.new_Vector3 NaN NaN NaN <> THREE.new_Vector3 two_pow_600 two_pow_600 0
   /\ point_eq (THREE.new_Vector3 NaN NaN NaN)
               (THREE.new_Vector3 two_pow_600 two_pow_600 0) = false)
  /\
  (isFinite 1 = true
   /\ finite2 (two_pow_600, 1) = true
   /\ solveVanDerPol 1 (VanDerPolParams.make 1 two_pow_600 1 0 1)
      = Some [THREE.new_Vector3 two_pow_600 1 0; THREE.new_Vector3 NaN NaN 0]
   /\ THREE.new_Vector3 NaN NaN 0 <> THREE.new_Vector3 two_pow_600 1 0
   /\ point_eq (THREE.new_Vector3 NaN NaN 0)
               (THREE.new_Vector3 two_pow_600 1 0) = false)
  /\
  (finite2 (1, two_pow_600) = true
   /\ finite2 (1, 1) = true
   /\ solveDampedPendulum (fun theta => theta) 1
        (DampedPendulumParams.make 1 two_pow_600 1 1 0 1)
      = Some [THREE.new_Vector3 1 1 0; THREE.new_Vector3 NaN NaN 0]
   /\ THREE.new_Vector3 NaN NaN 0 <> THREE.new_Vector3 1 1 0
   /\ point_eq (THREE.new_Vector3 NaN NaN 0) (THREE.new_Vector3 1 1 0) = false)
  /\
  (finite3 (1 / 5, 1 / 5, 6) = true
   /\ finite3 (two_pow_600, 1, two_pow_600) = true
   /\ solveRossler 1
        (RosslerParams.make (1 / 5) (1 / 5) 6 two_pow_600 1 two_pow_600 0 1)
      = Some [THREE.new_Vector3 two_pow_600 1 two_pow_600;
              THREE.new_Vector3 NaN NaN NaN]
   /\ THREE.new_Vector3 NaN NaN NaN <> THREE.new_Vector3 two_pow_600 1 two_pow_600
   /\ point_eq (THREE.new_Vector3 NaN NaN NaN)
               (THREE.new_Vector3 two_pow_600 1 two_pow_600) = false).
Proof.
  repeat split; try (vm_compute; reflexivity); discriminate.
Qed.

(** Why the constant trajectory of C8 is constant up to [===] only: a step
    of size zero turns a negative zero coordinate into a positive one. *)
Lemma zero_step_flips_sign_of_zero :
  solveLorenz 1 (LorenzParams.make 10 28 (8 / 3) neg_zero 1 0 0 1)
  = Some [THREE.new_Vector3 neg_zero 1 0; THREE.new_Vector3 0 1 0]
  /\ THREE.new_Vector3 0 1 0 <> THREE.new_Vector3 neg_zero 1 0
  /\ point_eq (THREE.new_Vector3 0 1 0) (THREE.new_Vector3 neg_zero 1 0) = true.
Proof.
  repeat split; try (vm_compute; reflexivity); discriminate.
Qed.

(** The time the loop passes to the stepper is a running floating-point sum,
    which is not the product [i * dt] in general: six additions of [0.1]
    give [0.6], the product [6 * 0.1] is [0.6000000000000001].  The
    trajectories do not depend on it, the derivative functions being
    autonomous. *)
Lemma accumulated_time_is_not_a_product :
  accumulated_time (1 / 10) 6 0 <> 6 * (1 / 10).
Proof. vm_compute. discriminate. Qed.

(** Non-finite values do not stop the loop: once a coordinate is NaN the
    remaining points are still produced, one per step. *)
Lemma non_finite_values_propagate :
  solveLorenz 3 (LorenzParams.make 10 28 (8 / 3) two_pow_600 two_pow_600 0
                   (1 / 100) 3)
  = Some [THREE.new_Vector3 two_pow_600 two_pow_600 0;
          THREE.new_Vector3 NaN NaN NaN;
          THREE.new_Vector3 NaN NaN NaN;
          THREE.new_Vector3 NaN NaN NaN].
Proof. vm_compute. reflexivity. Qed.

(* ================================================================= *)
(** ** Further properties of the integrator and the solve functions *)

(** X1.  The time argument is inert for the four systems: whatever time
    the stepper is called with, it returns the same state. *)
Theorem rk4Step_ignores_time_for_the_catalog :
  (forall sigma rho beta t t' y dt,
      rk4Step3D (lorenzDerivative sigma rho beta) t y dt
      = rk4Step3D (lorenzDerivative sigma rho beta) t' y dt)
  /\
  (forall mu t t' y dt,
      rk4Step2D (vanDerPolDerivative mu) t y dt
      = rk4Step2D (vanDerPolDerivative mu) t' y dt)
  /\
  (forall Math_sin gamma omega0 t t' y dt,
      rk4Step2D (dampedPendulumDerivative Math_sin gamma omega0) t y dt
      = rk4Step2D (dampedPendulumDerivative Math_sin gamma omega0) t' y dt)
  /\
  (forall a b c t t' y dt,
      rk4Step3D (rosslerDerivative a b c) t y dt
      = rk4Step3D (rosslerDerivative a b c) t' y dt).
Proof.
  split; [|split; [|split]]; intros.
  - exact (step3D_autonomous _ dt (lorenzDerivative_autonomous _ _ _) t t' y).
  - exact (step2D_autonomous _ dt (vanDerPolDerivative_autonomous _) t t' y).
  - exact (step2D_autonomous _ dt
             (dampedPendulumDerivative_autonomous _ _ _) t t' y).
  - exact (step3D_autonomous _ dt (rosslerDerivative_autonomous _ _ _) t t' y).
Qed.

Lemma add_non_finite_l (a b : number) : stays_non_finite a (a + b).
Proof.
  split; destruct a as [sa | sa | | sa ma ea]; try discriminate; intros _;
    try reflexivity;
    destruct b as [sb | sb | | sb mb eb]; try reflexivity;
    destruct sa, sb; reflexivity.
Qed.

Lemma stays_non_finite_refl (a : number) : stays_non_finite a a.
Proof. split; trivial. Qed.

Lemma stays_non_finite_trans (a b c : number) :
  stays_non_finite a b -> stays_non_finite b c -> stays_non_finite a c.
Proof. intros [H1 H2] [H3 H4]. split; auto. Qed.

(** X2.  A step never repairs a coordinate: for every derivative function,
    time and step size, a coordinate of the state that is not finite is not
    finite in the result, and one that is NaN is NaN in the result. *)
Theorem rk4Step_keeps_non_finite_coordinates :
  (forall (f : DerivativeFn2D) t y_0 y_1 dt,
      stays_non_finite y_0 (fst (rk4Step2D f t (y_0, y_1) dt))
      /\ stays_non_finite y_1 (snd (rk4Step2D f t (y_0, y_1) dt)))
  /\
  (forall (f : DerivativeFn3D) t y_0 y_1 y_2 dt,
      stays_non_finite y_0 (fst (fst (rk4Step3D f t (y_0, y_1, y_2) dt)))
      /\ stays_non_finite y_1 (snd (fst (rk4Step3D f t (y_0, y_1, y_2) dt)))
      /\ stays_non_finite y_2 (snd (rk4Step3D f t (y_0, y_1, y_2) dt))).
Proof.
  split; intros.
  - rewrite rk4Step2D_weighted_slope.
    destruct (weighted_slope2D f t _ dt) as [w_0 w_1]. cbn [fst snd].
    split; apply add_non_finite_l.
  - rewrite rk4Step3D_weighted_slope.
    destruct (weighted_slope3D f t _ dt) as [[w_0 w_1] w_2]. cbn [fst snd].
    repeat split; apply add_non_finite_l.
Qed.

Section Later.

Context {St : Type}.
Variable step : number -> St -> St.
Variable dt : number.
Variable R : St -> St -> Prop.

Hypothesis R_refl : forall s, R s s.
Hypothesis R_trans : forall s s' s'', R s s' -> R s' s'' -> R s s''.
Hypothesis R_step : forall t s, R s (step t s).

Lemma orbit_related (n : nat) :
  forall t s, Forall (R s) (orbit step dt n t s).
Proof.
  induction n as [|n IH]; intros t s; simpl; constructor.
  - apply R_step.
  - eapply Forall_impl; [| apply IH].
    intros s' Hs'. eapply R_trans; [apply R_step | exact Hs'].
Qed.

(** What a step preserves relates every entry to every later one. *)
Lemma orbit_later (n : nat) (t : number) (s : St) (i j : nat) (s_i s_j : St) :
  (i <= j)%nat ->
  nth_error (s :: orbit step dt n t s) i = Some s_i ->
  nth_error (s :: orbit step dt n t s) j = Some s_j ->
  R s_i s_j.
Proof.
  intros Hij Hi Hj.
  assert (Hin : (i <= n)%nat).
  { apply Nat.lt_succ_r.
    rewrite <- (orbit_length step dt n t s).
    change (i < length (s :: orbit step dt n t s))%nat.
    apply nth_error_Some. congruence. }
  destruct (orbit_skipn step dt n i t s Hin) as (s' & Hs' & Hskip).
  rewrite Hi in Hs'. injection Hs' as <-.
  replace j with (i + (j - i))%nat in Hj by lia.
  rewrite <- nth_error_skipn, Hskip in Hj.
  destruct (j - i)%nat as [|k].
  - injection Hj as <-. apply R_refl.
  - simpl in Hj. apply nth_error_In in Hj.
    pose proof (orbit_related (n - i) (accumulated_time dt i t) s_i) as Hall.
    rewrite Forall_forall in Hall. now apply Hall.
Qed.

End Later.

Lemma point_stays_non_finite_refl (p : THREE.Vector3) :
  point_stays_non_finite p p.
Proof. repeat split; trivial. Qed.

Lemma point_stays_non_finite_trans (p q r : THREE.Vector3) :
  point_stays_non_finite p q -> point_stays_non_finite q r ->
  point_stays_non_finite p r.
Proof.
  intros (Hx & Hy & Hz) (Hx' & Hy' & Hz').
  repeat split; eapply stays_non_finite_trans; eassumption.
Qed.

Lemma point3_step_stays_non_finite (f : DerivativeFn3D) (dt t : number)
    (s : Vec3) :
  point_stays_non_finite (point3 s) (point3 (step3D f dt t s)).
Proof.
  destruct s as [[s_0 s_1] s_2]. unfold step3D.
  rewrite rk4Step3D_weighted_slope.
  destruct (weighted_slope3D f t _ dt) as [[w_0 w_1] w_2].
  repeat split; apply add_non_finite_l.
Qed.

Lemma point2_step_stays_non_finite (f : DerivativeFn2D) (dt t : number)
    (s : Vec2) :
  point_stays_non_finite (point2 s) (point2 (step2D f dt t s)).
Proof.
  destruct s as [s_0 s_1]. unfold step2D.
  rewrite rk4Step2D_weighted_slope.
  destruct (weighted_slope2D f t _ dt) as [w_0 w_1].
  repeat split; try apply add_non_finite_l; trivial.
Qed.

Lemma trajectory_later {St : Type} (step : number -> St -> St)
    (mk : St -> THREE.Vector3) (dt : number)
    (R : THREE.Vector3 -> THREE.Vector3 -> Prop) :
  (forall p, R p p) ->
  (forall p q r, R p q -> R q r -> R p r) ->
  (forall t s, R (mk s) (mk (step t s))) ->
  forall (n : nat) (s0 : St) (i j : nat) (p q : THREE.Vector3),
    (i <= j)%nat ->
    nth_error (trajectory step mk dt n s0) i = Some p ->
    nth_error (trajectory step mk dt n s0) j = Some q ->
    R p q.
Proof.
  intros Hrefl Htrans Hstep n s0 i j p q Hij Hp Hq.
  rewrite trajectory_as_map, nth_error_map in Hp, Hq.
  destruct (nth_error (s0 :: orbit step dt n 0 s0) i) as [s_i|] eqn:Hi;
    [|discriminate].
  destruct (nth_error (s0 :: orbit step dt n 0 s0) j) as [s_j|] eqn:Hj;
    [|discriminate].
  injection Hp as <-. injection Hq as <-.
  apply (orbit_later step dt (fun s s' => R (mk s) (mk s'))
           (fun s => Hrefl (mk s))
           (fun s s' s'' => Htrans (mk s) (mk s') (mk s''))
           Hstep n 0 s0 i j s_i s_j Hij Hi Hj).
Qed.

(** X3.  Non-finite values are never repaired along a trajectory: if a
    coordinate of some point is not finite, the same coordinate of every
    later point is not finite, and if it is NaN it is NaN from there on. *)
Theorem non_finite_coordinates_persist :
  (forall fuel sigma rho beta x0 y0 z0 dt steps,
      (Z.to_nat steps <= fuel)%nat ->
      exists traj,
        solveLorenz fuel (LorenzParams.make sigma rho beta x0 y0 z0 dt steps)
        = Some traj
        /\ forall i j p q,
            (i <= j)%nat ->
            nth_error traj i = Some p -> nth_error traj j = Some q ->
            point_stays_non_finite p q)
  /\
  (forall fuel mu x0 y0 dt steps,
      (Z.to_nat steps <= fuel)%nat ->
      exists traj,
        solveVanDerPol fuel (VanDerPolParams.make mu x0 y0 dt steps)
        = Some traj
        /\ forall i j p q,
            (i <= j)%nat ->
            nth_error traj i = Some p -> nth_error traj j = Some q ->
            point_stays_non_finite p q)
  /\
  (forall Math_sin fuel gamma omega0 theta0 omegaInit dt steps,
      (Z.to_nat steps <= fuel)%nat ->
      exists traj,
        solveDampedPendulum Math_sin fuel
          (DampedPendulumParams.make gamma omega0 theta0 omegaInit dt steps)
        = Some traj
        /\ forall i j p q,
            (i <= j)%nat ->
            nth_error traj i = Some p -> nth_error traj j = Some q ->
            point_stays_non_finite p q)
  /\
  (forall fuel a b c x0 y0 z0 dt steps,
      (Z.to_nat steps <= fuel)%nat ->
      exists traj,
        solveRossler fuel (RosslerParams.make a b c x0 y0 z0 dt steps)
        = Some traj
        /\ forall i j p q,
            (i <= j)%nat ->
            nth_error traj i = Some p -> nth_error traj j = Some q ->
            point_stays_non_finite p q).
Proof.
  split; [|split; [|split]]; intros; run_solver;
    (eexists; split; [reflexivity|]);
    apply trajectory_later;
    auto using point_stays_non_finite_refl,
      point3_step_stays_non_finite, point2_step_stays_non_finite;
    apply point_stays_non_finite_trans.
Qed.

Lemma non_finite_coordinates_persist_witness :
  (exists traj,
      solveLorenz 3 (LorenzParams.make 10 28 (8 / 3) 1 NaN 1 (1 / 100) 3)
      = Some traj
      /\ forall i j p q,
          (i <= j)%nat ->
          nth_error traj i = Some p -> nth_error traj j = Some q ->
          point_stays_non_finite p q)
  /\ (exists traj,
         solveVanDerPol 3 (VanDerPolParams.make 1 (1 / 0) 0 (1 / 100) 3)
         = Some traj
         /\ forall i j p q,
             (i <= j)%nat ->
             nth_error traj i = Some p -> nth_error traj j = Some q ->
             point_stays_non_finite p q)
  /\ (exists traj,
         solveDampedPendulum (fun theta => theta) 3
           (DampedPendulumParams.make (1 / 2) 2 1 NaN (1 / 100) 3)
         = Some traj
         /\ forall i j p q,
             (i <= j)%nat ->
             nth_error traj i = Some p -> nth_error traj j = Some q ->
             point_stays_non_finite p q)
  /\ (exists traj,
         solveRossler 3
           (RosslerParams.make (1 / 5) (1 / 5) 6 two_pow_600 1 two_pow_600
              (1 / 100) 3)
         = Some traj
         /\ forall i j p q,
             (i <= j)%nat ->
             nth_error traj i = Some p -> nth_error traj j = Some q ->
             point_stays_non_finite p q).
Proof.
  destruct non_finite_coordinates_persist as (HL & HV & HP & HR).
  split; [|split; [|split]].
  - apply (HL 3%nat 10 28 (8 / 3) 1 NaN 1 (1 / 100) 3%Z); simpl; lia.
  - apply (HV 3%nat 1 (1 / 0) 0 (1 / 100) 3%Z); simpl; lia.
  - apply (HP (fun theta => theta) 3%nat (1 / 2) 2 1 NaN (1 / 100) 3%Z);
      simpl; lia.
  - apply (HR 3%nat (1 / 5) (1 / 5) 6 two_pow_600 1 two_pow_600 (1 / 100) 3%Z);
      simpl; lia.
Defined.

Lemma increment_dt_nan (y w : number) : y + w * NaN / 6 = NaN.
Proof.
  replace (w * NaN) with NaN by (destruct w; reflexivity).
  change (NaN / 6) with NaN. destruct y; reflexivity.
Qed.

Lemma rk4Step3D_dt_nan (f : DerivativeFn3D) (t : number) (y : Vec3) :
  rk4Step3D f t y NaN = (NaN, NaN, NaN).
Proof.
  rewrite rk4Step3D_weighted_slope. destruct y as [[y_0 y_1] y_2].
  destruct (weighted_slope3D f t _ NaN) as [[w_0 w_1] w_2].
  now rewrite !increment_dt_nan.
Qed.

Lemma rk4Step2D_dt_nan (f : DerivativeFn2D) (t : number) (y : Vec2) :
  rk4Step2D f t y NaN = (NaN, NaN).
Proof.
  rewrite rk4Step2D_weighted_slope. destruct y as [y_0 y_1].
  destruct (weighted_slope2D f t _ NaN) as [w_0 w_1].
  now rewrite !increment_dt_nan.
Qed.

Lemma orbit_constant {St : Type} (step : number -> St -> St) (dt : number)
    (c : St) :
  (forall t s, step t s = c) ->
  forall n t s, orbit step dt n t s = repeat c n.
Proof.
  intros Hc. induction n as [|n IH]; intros t s; simpl; [reflexivity|].
  now rewrite Hc, IH.
Qed.

Lemma trajectory_constant_step {St : Type} (step : number -> St -> St)
    (mk : St -> THREE.Vector3) (dt : number) (c : St) :
  (forall t s, step t s = c) ->
  forall n s0, trajectory step mk dt n s0 = mk s0 :: repeat (mk c) n.
Proof.
  intros Hc n s0. unfold trajectory.
  now rewrite (orbit_constant step dt c Hc), map_repeat.
Qed.

(** X4.  A step size that is NaN poisons everything but the initial point:
    the call still returns [steps + 1] points, the first is the initial
    state and every other is NaN in each integrated coordinate (the third
    coordinate of the planar systems stays [0]). *)
Theorem nan_step_size_gives_nan_points :
  (forall fuel sigma rho beta x0 y0 z0 steps,
      (Z.to_nat steps <= fuel)%nat ->
      solveLorenz fuel (LorenzParams.make sigma rho beta x0 y0 z0 NaN steps)
      = Some (THREE.new_Vector3 x0 y0 z0
              :: repeat (THREE.new_Vector3 NaN NaN NaN) (Z.to_nat steps)))
  /\
  (forall fuel mu x0 y0 steps,
      (Z.to_nat steps <= fuel)%nat ->
      solveVanDerPol fuel (VanDerPolParams.make mu x0 y0 NaN steps)
      = Some (THREE.new_Vector3 x0 y0 0
              :: repeat (THREE.new_Vector3 NaN NaN 0) (Z.to_nat steps)))
  /\
  (forall Math_sin fuel gamma omega0 theta0 omegaInit steps,
      (Z.to_nat steps <= fuel)%nat ->
      solveDampedPendulum Math_sin fuel
        (DampedPendulumParams.make gamma omega0 theta0 omegaInit NaN steps)
      = Some (THREE.new_Vector3 theta0 omegaInit 0
              :: repeat (THREE.new_Vector3 NaN NaN 0) (Z.to_nat steps)))
  /\
  (forall fuel a b c x0 y0 z0 steps,
      (Z.to_nat steps <= fuel)%nat ->
      solveRossler fuel (RosslerParams.make a b c x0 y0 z0 NaN steps)
      = Some (THREE.new_Vector3 x0 y0 z0
              :: repeat (THREE.new_Vector3 NaN NaN NaN) (Z.to_nat steps))).
Proof.
  split; [|split; [|split]]; intros; run_solver; f_equal.
  - apply (trajectory_constant_step _ point3 NaN (NaN, NaN, NaN)).
    intros; apply rk4Step3D_dt_nan.
  - apply (trajectory_constant_step _ point2 NaN (NaN, NaN)).
    intros; apply rk4Step2D_dt_nan.
  - apply (trajectory_constant_step _ point2 NaN (NaN, NaN)).
    intros; apply rk4Step2D_dt_nan.
  - apply (trajectory_constant_step _ point3 NaN (NaN, NaN, NaN)).
    intros; apply rk4Step3D_dt_nan.
Qed.

Lemma nan_step_size_gives_nan_points_witness :
  solveLorenz 2 (LorenzParams.make 10 28 (8 / 3) 1 1 1 NaN 2)
  = Some [THREE.new_Vector3 1 1 1; THREE.new_Vector3 NaN NaN NaN;
          THREE.new_Vector3 NaN NaN NaN]
  /\ solveVanDerPol 2 (VanDerPolParams.make 1 2 0 NaN 2)
     = Some [THREE.new_Vector3 2 0 0; THREE.new_Vector3 NaN NaN 0;
             THREE.new_Vector3 NaN NaN 0]
  /\ solveDampedPendulum (fun theta => theta) 1
       (DampedPendulumParams.make (1 / 2) 2 1 0 NaN 1)
     = Some [THREE.new_Vector3 1 0 0; THREE.new_Vector3 NaN NaN 0]
  /\ solveRossler 1 (RosslerParams.make (1 / 5) (1 / 5) 6 1 1 1 NaN 1)
     = Some [THREE.new_Vector3 1 1 1; THREE.new_Vector3 NaN NaN NaN].
Proof.
  destruct nan_step_size_gives_nan_points as (HL & HV & HP & HR).
  split; [|split; [|split]].
  - apply (HL 2%nat 10 28 (8 / 3) 1 1 1 2%Z); simpl; lia.
  - apply (HV 2%nat 1 2 0 2%Z); simpl; lia.
  - apply (HP (fun theta => theta) 1%nat (1 / 2) 2 1 0 1%Z); simpl; lia.
  - apply (HR 1%nat (1 / 5) (1 / 5) 6 1 1 1 1%Z); simpl; lia.
Defined.

Lemma orbit_firstn {St : Type} (step : number -> St -> St) (dt : number)
    (n : nat) :
  forall m t s,
    (n <= m)%nat -> firstn n (orbit step dt m t s) = orbit step dt n t s.
Proof.
  induction n as [|n IH]; intros m t s Hnm; [reflexivity|].
  destruct m as [|m]; [lia|]. simpl. f_equal. apply IH. lia.
Qed.

Lemma trajectory_firstn {St : Type} (step : number -> St -> St)
    (mk : St -> THREE.Vector3) (dt : number) (n m : nat) (s0 : St) :
  (n <= m)%nat ->
  firstn (S n) (trajectory step mk dt m s0) = trajectory step mk dt n s0.
Proof.
  intros Hnm. unfold trajectory. simpl. f_equal.
  now rewrite firstn_map, orbit_firstn.
Qed.

(** X5.  Asking for more steps only extends a trajectory: with the other
    inputs unchanged, the result for [steps] is the first [steps + 1]
    points of the result for any larger step count. *)
Theorem fewer_steps_give_a_prefix :
  (forall fuel fuel' sigma rho beta x0 y0 z0 dt steps steps',
      (0 <= steps <= steps')%Z ->
      (Z.to_nat steps <= fuel)%nat -> (Z.to_nat steps' <= fuel')%nat ->
      exists traj',
        solveLorenz fuel' (LorenzParams.make sigma rho beta x0 y0 z0 dt steps')
        = Some traj'
        /\ solveLorenz fuel
             (LorenzParams.make sigma rho beta x0 y0 z0 dt steps)
           = Some (firstn (Z.to_nat (steps + 1)) traj'))
  /\
  (forall fuel fuel' mu x0 y0 dt steps steps',
      (0 <= steps <= steps')%Z ->
      (Z.to_nat steps <= fuel)%nat -> (Z.to_nat steps' <= fuel')%nat ->
      exists traj',
        solveVanDerPol fuel' (VanDerPolParams.make mu x0 y0 dt steps')
        = Some traj'
        /\ solveVanDerPol fuel (VanDerPolParams.make mu x0 y0 dt steps)
           = Some (firstn (Z.to_nat (steps + 1)) traj'))
  /\
  (forall Math_sin fuel fuel' gamma omega0 theta0 omegaInit dt steps steps',
      (0 <= steps <= steps')%Z ->
      (Z.to_nat steps <= fuel)%nat -> (Z.to_nat steps' <= fuel')%nat ->
      exists traj',
        solveDampedPendulum Math_sin fuel'
          (DampedPendulumParams.make gamma omega0 theta0 omegaInit dt steps')
        = Some traj'
        /\ solveDampedPendulum Math_sin fuel
             (DampedPendulumParams.make gamma omega0 theta0 omegaInit dt steps)
           = Some (firstn (Z.to_nat (steps + 1)) traj'))
  /\
  (forall fuel fuel' a b c x0 y0 z0 dt steps steps',
      (0 <= steps <= steps')%Z ->
      (Z.to_nat steps <= fuel)%nat -> (Z.to_nat steps' <= fuel')%nat ->
      exists traj',
        solveRossler fuel' (RosslerParams.make a b c x0 y0 z0 dt steps')
        = Some traj'
        /\ solveRossler fuel (RosslerParams.make a b c x0 y0 z0 dt steps)
           = Some (firstn (Z.to_nat (steps + 1)) traj')).
Proof.
  split; [|split; [|split]]; intros;
    (eexists; split; [run_solver; reflexivity|]);
    run_solver; f_equal;
    replace (Z.to_nat (steps + 1)) with (S (Z.to_nat steps)) by lia;
    symmetry; apply trajectory_firstn; lia.
Qed.

Lemma fewer_steps_give_a_prefix_witness :
  (exists traj',
      solveLorenz 3 (LorenzParams.make 10 28 (8 / 3) 1 1 1 (1 / 100) 3)
      = Some traj'
      /\ solveLorenz 1 (LorenzParams.make 10 28 (8 / 3) 1 1 1 (1 / 100) 1)
         = Some (firstn 2 traj'))
  /\ (exists traj',
         solveVanDerPol 3 (VanDerPolParams.make 1 2 0 (1 / 100) 3) = Some traj'
         /\ solveVanDerPol 2 (VanDerPolParams.make 1 2 0 (1 / 100) 2)
            = Some (firstn 3 traj'))
  /\ (exists traj',
         solveDampedPendulum (fun theta => theta) 2
           (DampedPendulumParams.make (1 / 2) 2 1 0 (1 / 100) 2)
         = Some traj'
         /\ solveDampedPendulum (fun theta => theta) 0
              (DampedPendulumParams.make (1 / 2) 2 1 0 (1 / 100) 0)
            = Some (firstn 1 traj'))
  /\ (exists traj',
         solveRossler 2 (RosslerParams.make (1 / 5) (1 / 5) 6 1 1 1 (1 / 100) 2)
         = Some traj'
         /\ solveRossler 2
              (RosslerParams.make (1 / 5) (1 / 5) 6 1 1 1 (1 / 100) 2)
            = Some (firstn 3 traj')).
Proof.
  destruct fewer_steps_give_a_prefix as (HL & HV & HP & HR).
  split; [|split; [|split]].
  - apply (HL 1%nat 3%nat 10 28 (8 / 3) 1 1 1 (1 / 100) 1%Z 3%Z); simpl; lia.
  - apply (HV 2%nat 3%nat 1 2 0 (1 / 100) 2%Z 3%Z); simpl; lia.
  - apply (HP (fun theta => theta) 0%nat 2%nat (1 / 2) 2 1 0 (1 / 100) 0%Z 2%Z);
      simpl; lia.
  - apply (HR 2%nat 2%nat (1 / 5) (1 / 5) 6 1 1 1 (1 / 100) 2%Z 2%Z);
      simpl; lia.
Defined.

(* ================================================================= *)
(** ** Equilibria at the origin *)

Lemma isZero_isFinite (a : number) : isZero a = true -> isFinite a = true.
Proof. destruct a; trivial; discriminate. Qed.

Lemma isZero_strict_eq (a : number) : isZero a = true -> strict_eq a 0 = true.
Proof. destruct a; trivial; discriminate. Qed.

Lemma zero_add (a b : number) :
  isZero a = true -> isZero b = true -> isZero (a + b) = true.
Proof.
  destruct a as [sa | | |], b as [sb | | |]; try discriminate; intros _ _.
  destruct sa, sb; reflexivity.
Qed.

Lemma zero_sub (a b : number) :
  isZero a = true -> isZero b = true -> isZero (a - b) = true.
Proof.
  destruct a as [sa | | |], b as [sb | | |]; try discriminate; intros _ _.
  destruct sa, sb; reflexivity.
Qed.

Lemma zero_mul_l (a b : number) :
  isZero a = true -> isFinite b = true -> isZero (a * b) = true.
Proof.
  destruct a as [sa | | |], b as [sb | | | sb mb eb]; try discriminate;
    reflexivity.
Qed.

Lemma zero_mul_r (a b : number) :
  isFinite a = true -> isZero b = true -> isZero (a * b) = true.
Proof.
  destruct a as [sa | | | sa ma ea], b as [sb | | |]; try discriminate;
    reflexivity.
Qed.

Lemma zero_div_2 (a : number) : isZero a = true -> isZero (a / 2) = true.
Proof. destruct a; try discriminate; reflexivity. Qed.

Lemma zero_div_6 (a : number) : isZero a = true -> isZero (a / 6) = true.
Proof. destruct a; try discriminate; reflexivity. Qed.

Lemma finite_sub_zero (a b : number) :
  isFinite a = true -> isZero b = true -> isFinite (a - b) = true.
Proof.
  destruct a as [sa | | | sa ma ea], b as [sb | | |]; try discriminate;
    intros _ _; [destruct sa, sb|]; reflexivity.
Qed.

Lemma finite_neg (a : number) : isFinite a = true -> isFinite (- a) = true.
Proof. destruct a; trivial. Qed.

Create HintDb zeros.
#[local] Hint Resolve zero_add zero_sub zero_mul_l zero_mul_r zero_div_2
  zero_div_6 finite_sub_zero finite_neg isZero_isFinite : zeros.

Lemma zero3_intro (a b c : number) :
  isZero a = true -> isZero b = true -> isZero c = true ->
  zero3 (a, b, c) = true.
Proof. intros Ha Hb Hc. unfold zero3. now rewrite Ha, Hb, Hc. Qed.

Lemma zero3_elim (a b c : number) :
  zero3 (a, b, c) = true ->
  isZero a = true /\ isZero b = true /\ isZero c = true.
Proof.
  unfold zero3. rewrite !andb_true_iff. intros [[Ha Hb] Hc]. auto.
Qed.

Lemma zero2_intro (a b : number) :
  isZero a = true -> isZero b = true -> zero2 (a, b) = true.
Proof. intros Ha Hb. unfold zero2. now rewrite Ha, Hb. Qed.

Lemma zero2_elim (a b : number) :
  zero2 (a, b) = true -> isZero a = true /\ isZero b = true.
Proof. unfold zero2. rewrite andb_true_iff. auto. Qed.

(** A derivative function that vanishes at the origin keeps the stepper
    there, for every finite step size. *)
Lemma rk4Step3D_zero (f : DerivativeFn3D) (t : number) (y : Vec3)
    (dt : number) :
  (forall t' s, zero3 s = true -> zero3 (f t' s) = true) ->
  isFinite dt = true ->
  zero3 y = true ->
  zero3 (rk4Step3D f t y dt) = true.
Proof.
  intros Hf Hdt Hy. destruct y as [[y_0 y_1] y_2].
  destruct (zero3_elim _ _ _ Hy) as (Hy0 & Hy1 & Hy2).
  unfold rk4Step3D.
  pose proof (Hf t _ Hy) as Hk1.
  destruct (f t (y_0, y_1, y_2)) as [[k1_0 k1_1] k1_2].
  destruct (zero3_elim _ _ _ Hk1) as (Hk10 & Hk11 & Hk12).
  assert (Hk2 : zero3 (f (t + dt / 2)
                         (y_0 + k1_0 * dt / 2, y_1 + k1_1 * dt / 2,
                          y_2 + k1_2 * dt / 2)) = true)
    by (apply Hf, zero3_intro; auto with zeros).
  destruct (f (t + dt / 2) _) as [[k2_0 k2_1] k2_2].
  destruct (zero3_elim _ _ _ Hk2) as (Hk20 & Hk21 & Hk22).
  assert (Hk3 : zero3 (f (t + dt / 2)
                         (y_0 + k2_0 * dt / 2, y_1 + k2_1 * dt / 2,
                          y_2 + k2_2 * dt / 2)) = true)
    by (apply Hf, zero3_intro; auto with zeros).
  destruct (f (t + dt / 2) _) as [[k3_0 k3_1] k3_2].
  destruct (zero3_elim _ _ _ Hk3) as (Hk30 & Hk31 & Hk32).
  assert (Hk4 : zero3 (f (t + dt)
                         (y_0 + k3_0 * dt, y_1 + k3_1 * dt, y_2 + k3_2 * dt))
                = true)
    by (apply Hf, zero3_intro; auto with zeros).
  destruct (f (t + dt) _) as [[k4_0 k4_1] k4_2].
  destruct (zero3_elim _ _ _ Hk4) as (Hk40 & Hk41 & Hk42).
  assert (H2 : isFinite 2 = true) by reflexivity.
  apply zero3_intro; auto 10 with zeros.
Qed.

Lemma rk4Step2D_zero (f : DerivativeFn2D) (t : number) (y : Vec2)
    (dt : number) :
  (forall t' s, zero2 s = true -> zero2 (f t' s) = true) ->
  isFinite dt = true ->
  zero2 y = true ->
  zero2 (rk4Step2D f t y dt) = true.
Proof.
  intros Hf Hdt Hy. destruct y as [y_0 y_1].
  destruct (zero2_elim _ _ Hy) as (Hy0 & Hy1).
  unfold rk4Step2D.
  pose proof (Hf t _ Hy) as Hk1.
  destruct (f t (y_0, y_1)) as [k1_0 k1_1].
  destruct (zero2_elim _ _ Hk1) as (Hk10 & Hk11).
  assert (Hk2 : zero2 (f (t + dt / 2)
                         (y_0 + k1_0 * dt / 2, y_1 + k1_1 * dt / 2)) = true)
    by (apply Hf, zero2_intro; auto with zeros).
  destruct (f (t + dt / 2) _) as [k2_0 k2_1].
  destruct (zero2_elim _ _ Hk2) as (Hk20 & Hk21).
  assert (Hk3 : zero2 (f (t + dt / 2)
                         (y_0 + k2_0 * dt / 2, y_1 + k2_1 * dt / 2)) = true)
    by (apply Hf, zero2_intro; auto with zeros).
  destruct (f (t + dt / 2) _) as [k3_0 k3_1].
  destruct (zero2_elim _ _ Hk3) as (Hk30 & Hk31).
  assert (Hk4 : zero2 (f (t + dt) (y_0 + k3_0 * dt, y_1 + k3_1 * dt)) = true)
    by (apply Hf, zero2_intro; auto with zeros).
  destruct (f (t + dt) _) as [k4_0 k4_1].
  destruct (zero2_elim _ _ Hk4) as (Hk40 & Hk41).
  assert (H2 : isFinite 2 = true) by reflexivity.
  apply zero2_intro; auto 10 with zeros.
Qed.

Lemma lorenzDerivative_zero (sigma rho beta t : number) (s : Vec3) :
  isFinite sigma = true -> isFinite rho = true -> isFinite beta = true ->
  zero3 s = true ->
  zero3 (lorenzDerivative sigma rho beta t s) = true.
Proof.
  intros Hsigma Hrho Hbeta Hs. destruct s as [[x y] z].
  destruct (zero3_elim _ _ _ Hs) as (Hx & Hy & Hz).
  apply zero3_intro; auto 6 with zeros.
Qed.

Lemma dampedPendulumDerivative_zero (Math_sin : number -> number)
    (gamma omega0 t : number) (s : Vec2) :
  (forall theta, isZero theta = true -> isZero (Math_sin theta) = true) ->
  isFinite gamma = true -> isFinite (omega0 * omega0) = true ->
  zero2 s = true ->
  zero2 (dampedPendulumDerivative Math_sin gamma omega0 t s) = true.
Proof.
  intros Hsin Hgamma Homega Hs. destruct s as [theta omega].
  destruct (zero2_elim _ _ Hs) as (Htheta & Homega').
  apply zero2_intro; auto 6 with zeros.
Qed.

Lemma orbit_invariant {St : Type} (step : number -> St -> St) (dt : number)
    (P : St -> Prop) :
  (forall t s, P s -> P (step t s)) ->
  forall n t s, P s -> Forall P (orbit step dt n t s).
Proof.
  intros Hstep. induction n as [|n IH]; intros t s Hs; simpl; constructor.
  - now apply Hstep.
  - apply IH. now apply Hstep.
Qed.

Lemma zero3_point_eq (s : Vec3) :
  zero3 s = true -> point_eq (point3 s) (THREE.new_Vector3 0 0 0) = true.
Proof.
  destruct s as [[a b] c]. intros H.
  destruct (zero3_elim _ _ _ H) as (Ha & Hb & Hc).
  unfold point_eq, point3; cbn [THREE.x THREE.y THREE.z].
  now rewrite !isZero_strict_eq.
Qed.

Lemma zero2_point_eq (s : Vec2) :
  zero2 s = true -> point_eq (point2 s) (THREE.new_Vector3 0 0 0) = true.
Proof.
  destruct s as [a b]. intros H.
  destruct (zero2_elim _ _ H) as (Ha & Hb).
  unfold point_eq, point2; cbn [THREE.x THREE.y THREE.z].
  now rewrite !isZero_strict_eq.
Qed.

(** X6.  The origin is an equilibrium of the Lorenz solver: started at
    [(0, 0, 0)] (zeros of any sign), with finite parameters and a finite
    step size, every point of the trajectory is [===] to [(0, 0, 0)]. *)
Theorem lorenz_stays_at_the_origin :
  forall fuel sigma rho beta x0 y0 z0 dt steps,
    (Z.to_nat steps <= fuel)%nat ->
    isFinite sigma = true -> isFinite rho = true -> isFinite beta = true ->
    isFinite dt = true ->
    isZero x0 = true -> isZero y0 = true -> isZero z0 = true ->
    exists traj,
      solveLorenz fuel (LorenzParams.make sigma rho beta x0 y0 z0 dt steps)
      = Some traj
      /\ Forall (fun p => point_eq p (THREE.new_Vector3 0 0 0) = true) traj.
Proof.
  intros until steps. intros Hfuel Hsigma Hrho Hbeta Hdt Hx Hy Hz.
  run_solver. eexists; split; [reflexivity|].
  rewrite trajectory_as_map. apply Forall_map.
  assert (H0 : zero3 (x0, y0, z0) = true) by now apply zero3_intro.
  eapply Forall_impl; [intros s Hs; apply zero3_point_eq; exact Hs|].
  constructor; [exact H0|].
  apply orbit_invariant; [|exact H0].
  intros t s Hs. apply rk4Step3D_zero; trivial.
  intros t' s' Hs'. now apply lorenzDerivative_zero.
Qed.

Lemma lorenz_stays_at_the_origin_witness :
  exists traj,
    solveLorenz 3 (LorenzParams.make 10 28 (8 / 3) 0 neg_zero 0 (1 / 100) 3)
    = Some traj
    /\ Forall (fun p => point_eq p (THREE.new_Vector3 0 0 0) = true) traj.
Proof.
  apply (lorenz_stays_at_the_origin 3%nat 10 28 (8 / 3) 0 neg_zero 0
           (1 / 100) 3%Z);
    solve [simpl; lia | reflexivity].
Defined.

(** X7.  A pendulum at rest stays at rest: started at [theta0 = 0] and
    [omegaInit = 0] (zeros of any sign), with finite [gamma], a square
    [omega0 * omega0] that does not overflow, a finite step size and a
    sine that maps zeros to zeros, every point of the trajectory is [===]
    to [(0, 0, 0)]. *)
Theorem pendulum_at_rest_stays_at_rest :
  forall Math_sin fuel gamma omega0 theta0 omegaInit dt steps,
    (Z.to_nat steps <= fuel)%nat ->
    (forall theta, isZero theta = true -> isZero (Math_sin theta) = true) ->
    isFinite gamma = true -> isFinite (omega0 * omega0) = true ->
    isFinite dt = true ->
    isZero theta0 = true -> isZero omegaInit = true ->
    exists traj,
      solveDampedPendulum Math_sin fuel
        (DampedPendulumParams.make gamma omega0 theta0 omegaInit dt steps)
      = Some traj
      /\ Forall (fun p => point_eq p (THREE.new_Vector3 0 0 0) = true) traj.
Proof.
  intros until steps. intros Hfuel Hsin Hgamma Homega Hdt Htheta Homega'.
  run_solver. eexists; split; [reflexivity|].
  rewrite trajectory_as_map. apply Forall_map.
  assert (H0 : zero2 (theta0, omegaInit) = true) by now apply zero2_intro.
  eapply Forall_impl; [intros s Hs; apply zero2_point_eq; exact Hs|].
  constructor; [exact H0|].
  apply orbit_invariant; [|exact H0].
  intros t s Hs. apply rk4Step2D_zero; trivial.
  intros t' s' Hs'. now apply dampedPendulumDerivative_zero.
Qed.

Lemma pendulum_at_rest_stays_at_rest_witness :
  exists traj,
    solveDampedPendulum (fun theta => theta) 3
      (DampedPendulumParams.make (3 / 10) (3 / 2) 0 neg_zero (1 / 50) 3)
    = Some traj
    /\ Forall (fun p => point_eq p (THREE.new_Vector3 0 0 0) = true) traj.
Proof.
  apply (pendulum_at_rest_stays_at_rest (fun theta => theta) 3%nat
           (3 / 10) (3 / 2) 0 neg_zero (1 / 50) 3%Z);
    solve [simpl; lia | reflexivity | intros theta H; exact H].
Defined.

(** The hypothesis on [omega0 * omega0] is needed: with [omega0 = 2^600]
    the pendulum at rest is thrown to NaN in one step. *)
Lemma pendulum_at_rest_needs_finite_square :
  isFinite two_pow_600 = true
  /\ solveDampedPendulum (fun theta => theta) 1
       (DampedPendulumParams.make (3 / 10) two_pow_600 0 0 (1 / 50) 1)
     = Some [THREE.new_Vector3 0 0 0; THREE.new_Vector3 NaN NaN 0].
Proof. split; vm_compute; reflexivity. Qed.

(* ================================================================= *)
(** ** Flat buffers and points *)

Lemma list_ind3 {A : Type} (P : list A -> Prop) :
  P [] -> (forall a, P [a]) -> (forall a b, P [a; b]) ->
  (forall a b c rest, P rest -> P (a :: b :: c :: rest)) ->
  forall l, P l.
Proof.
  intros H0 H1 H2 H3. fix IH 1.
  intros [|a [|b [|c rest]]];
    [apply H0 | apply H1 | apply H2 | apply H3, IH].
Qed.

Lemma list_ind2 {A : Type} (P : list A -> Prop) :
  P [] -> (forall a, P [a]) ->
  (forall a b rest, P rest -> P (a :: b :: rest)) ->
  forall l, P l.
Proof.
  intros H0 H1 H2. fix IH 1.
  intros [|a [|b rest]]; [apply H0 | apply H1 | apply H2, IH].
Qed.

Lemma for_range_done {St : Type} (fuel : nat) (i bound stride : Z)
    (body : Z -> St -> St) (s : St) :
  (bound <= i)%Z -> for_range fuel i bound stride body s = Some s.
Proof.
  intros Hi. assert (H : (i <? bound)%Z = false) by (apply Z.ltb_ge; lia).
  destruct fuel; simpl; now rewrite H.
Qed.

Lemma for_range_step {St : Type} (fuel : nat) (i bound stride : Z)
    (body : Z -> St -> St) (s : St) :
  (i < bound)%Z ->
  for_range (S fuel) i bound stride body s
  = for_range fuel (i + stride)%Z bound stride body (body i s).
Proof.
  intros Hi. assert (H : (i <? bound)%Z = true) by (apply Z.ltb_lt; lia).
  simpl. now rewrite H.
Qed.

Lemma array_get_app {A : Type} (pre rest : list A) (k : nat) :
  array_get (pre ++ rest) (Z.of_nat (length pre) + Z.of_nat k)
  = nth_error rest k.
Proof.
  unfold array_get.
  assert (H : (Z.of_nat (length pre) + Z.of_nat k <? 0)%Z = false)
    by (apply Z.ltb_ge; lia).
  rewrite H, nth_error_app2 by lia. f_equal. lia.
Qed.

Lemma array_get_app0 {A : Type} (pre rest : list A) :
  array_get (pre ++ rest) (Z.of_nat (length pre)) = nth_error rest 0.
Proof.
  rewrite <- (array_get_app pre rest 0). f_equal. lia.
Qed.

Lemma array_get_app1 {A : Type} (pre rest : list A) :
  array_get (pre ++ rest) (Z.of_nat (length pre) + 1) = nth_error rest 1.
Proof. exact (array_get_app pre rest 1). Qed.

Lemma array_get_app2 {A : Type} (pre rest : list A) :
  array_get (pre ++ rest) (Z.of_nat (length pre) + 2) = nth_error rest 2.
Proof. exact (array_get_app pre rest 2). Qed.

(** The loop of [toVector3Array], entered at the start of [rest]. *)
Lemma toVector3Array_loop (rest : list number) :
  forall (fuel : nat) (pre : list number) (points : list THREE.Vector3),
    (length (Wasm.groups3 rest) <= fuel)%nat ->
    for_range fuel (Z.of_nat (length pre))
      (Z.of_nat (length (pre ++ rest))) 3%Z
      (fun i points =>
         push points
           (Wasm.new_Vector3 (array_get (pre ++ rest) i)
              (array_get (pre ++ rest) (i + 1)%Z)
              (array_get (pre ++ rest) (i + 2)%Z)))
      points
    = Some (points ++ Wasm.groups3 rest).
Proof.
  induction rest as [| a | a b | a b c rest IH] using list_ind3;
    intros fuel pre points Hfuel.
  - rewrite for_range_done by (rewrite app_nil_r; lia).
    now rewrite app_nil_r.
  - destruct fuel as [|fuel]; [simpl in Hfuel; lia|].
    rewrite for_range_step by (rewrite length_app; simpl; lia).
    rewrite for_range_done by (rewrite length_app; simpl; lia).
    now rewrite array_get_app0, array_get_app1, array_get_app2.
  - destruct fuel as [|fuel]; [simpl in Hfuel; lia|].
    rewrite for_range_step by (rewrite length_app; simpl; lia).
    rewrite for_range_done by (rewrite length_app; simpl; lia).
    now rewrite array_get_app0, array_get_app1, array_get_app2.
  - destruct fuel as [|fuel]; [simpl in Hfuel; lia|].
    rewrite for_range_step by (rewrite length_app; simpl; lia).
    rewrite array_get_app0, array_get_app1, array_get_app2.
    cbn [nth_error].
    change (Wasm.new_Vector3 (Some a) (Some b) (Some c))
      with (THREE.new_Vector3 a b c).
    specialize (IH fuel (pre ++ [a; b; c])
                  (push points (THREE.new_Vector3 a b c))).
    rewrite <- app_assoc in IH. cbn [app] in IH.
    replace (Z.of_nat (length (pre ++ [a; b; c])))
      with (Z.of_nat (length pre) + 3)%Z in IH
      by (rewrite length_app; simpl; lia).
    rewrite IH by (simpl in Hfuel; lia).
    unfold push. now rewrite <- app_assoc.
Qed.

Lemma toVector3Array_groups3 (fuel : nat) (data : list number) :
  (length (Wasm.groups3 data) <= fuel)%nat ->
  Wasm.toVector3Array fuel data 3 = Some (Wasm.groups3 data).
Proof.
  intros Hfuel. unfold Wasm.toVector3Array.
  exact (toVector3Array_loop data fuel [] [] Hfuel).
Qed.

Lemma toVector3Array2D_loop (rest : list number) :
  forall (fuel : nat) (pre : list number) (points : list THREE.Vector3),
    (length (Wasm.groups2 rest) <= fuel)%nat ->
    for_range fuel (Z.of_nat (length pre))
      (Z.of_nat (length (pre ++ rest))) 2%Z
      (fun i points =>
         push points
           (Wasm.new_Vector3 (array_get (pre ++ rest) i)
              (array_get (pre ++ rest) (i + 1)%Z) (Some 0)))
      points
    = Some (points ++ Wasm.groups2 rest).
Proof.
  induction rest as [| a | a b rest IH] using list_ind2;
    intros fuel pre points Hfuel.
  - rewrite for_range_done by (rewrite app_nil_r; lia).
    now rewrite app_nil_r.
  - destruct fuel as [|fuel]; [simpl in Hfuel; lia|].
    rewrite for_range_step by (rewrite length_app; simpl; lia).
    rewrite for_range_done by (rewrite length_app; simpl; lia).
    now rewrite array_get_app0, array_get_app1.
  - destruct fuel as [|fuel]; [simpl in Hfuel; lia|].
    rewrite for_range_step by (rewrite length_app; simpl; lia).
    rewrite array_get_app0, array_get_app1.
    cbn [nth_error].
    change (Wasm.new_Vector3 (Some a) (Some b) (Some 0))
      with (THREE.new_Vector3 a b 0).
    specialize (IH fuel (pre ++ [a; b])
                  (push points (THREE.new_Vector3 a b 0))).
    rewrite <- app_assoc in IH. cbn [app] in IH.
    replace (Z.of_nat (length (pre ++ [a; b])))
      with (Z.of_nat (length pre) + 2)%Z in IH
      by (rewrite length_app; simpl; lia).
    rewrite IH by (simpl in Hfuel; lia).
    unfold push. now rewrite <- app_assoc.
Qed.

Lemma toVector3Array2D_groups2 (fuel : nat) (data : list number) :
  (length (Wasm.groups2 data) <= fuel)%nat ->
  Wasm.toVector3Array2D fuel data = Some (Wasm.groups2 data).
Proof.
  intros Hfuel. unfold Wasm.toVector3Array2D.
  exact (toVector3Array2D_loop data fuel [] [] Hfuel).
Qed.

Lemma groups3_length (data : list number) :
  length (Wasm.groups3 data) = ((length data + 2) / 3)%nat.
Proof.
  induction data as [| a | a b | a b c rest IH] using list_ind3;
    try reflexivity.
  cbn [Wasm.groups3 length]. rewrite IH.
  replace (S (S (S (length rest))) + 2)%nat
    with (length rest + 2 + 1 * 3)%nat by lia.
  rewrite Nat.div_add by lia. lia.
Qed.

Lemma groups2_length (data : list number) :
  length (Wasm.groups2 data) = ((length data + 1) / 2)%nat.
Proof.
  induction data as [| a | a b rest IH] using list_ind2; try reflexivity.
  cbn [Wasm.groups2 length]. rewrite IH.
  replace (S (S (length rest)) + 1)%nat
    with (length rest + 1 + 1 * 2)%nat by lia.
  rewrite Nat.div_add by lia. lia.
Qed.

Lemma groups3_flat3 (points : list THREE.Vector3) (tail : list number) :
  Wasm.groups3 (Wasm.flat3 points ++ tail) = points ++ Wasm.groups3 tail.
Proof.
  induction points as [|[px py pz] points IH]; [reflexivity|].
  cbn [Wasm.flat3 flat_map app THREE.x THREE.y THREE.z Wasm.groups3].
  fold (Wasm.flat3 points). now rewrite IH.
Qed.

Lemma groups2_flat2 (states : list Vec2) (tail : list number) :
  Wasm.groups2 (Wasm.flat2 states ++ tail)
  = map point2 states ++ Wasm.groups2 tail.
Proof.
  induction states as [|[s_0 s_1] states IH]; [reflexivity|].
  cbn [Wasm.flat2 flat_map app Wasm.groups2 map point2].
  fold (Wasm.flat2 states). now rewrite IH.
Qed.

(** X8.  The two converters return one point per started group of the
    buffer: [ceil(n / 3)] points for [toVector3Array] and [ceil(n / 2)] for
    [toVector3Array2D], where [n] is the length of the buffer; an empty
    buffer gives no point. *)
Theorem converters_return_one_point_per_group :
  (forall fuel data,
      (length data <= fuel)%nat ->
      exists points,
        Wasm.toVector3Array fuel data 3 = Some points
        /\ length points = ((length data + 2) / 3)%nat)
  /\
  (forall fuel data,
      (length data <= fuel)%nat ->
      exists points,
        Wasm.toVector3Array2D fuel data = Some points
        /\ length points = ((length data + 1) / 2)%nat).
Proof.
  split; intros fuel data Hfuel.
  - exists (Wasm.groups3 data). split; [|apply groups3_length].
    apply toVector3Array_groups3. rewrite groups3_length.
    destruct data as [|a data]; [apply Nat.le_0_l|].
    apply Nat.Div0.div_le_upper_bound. simpl in *. lia.
  - exists (Wasm.groups2 data). split; [|apply groups2_length].
    apply toVector3Array2D_groups2. rewrite groups2_length.
    destruct data as [|a data]; [apply Nat.le_0_l|].
    apply Nat.Div0.div_le_upper_bound. simpl in *. lia.
Qed.

Lemma converters_return_one_point_per_group_witness :
  (exists points,
      Wasm.toVector3Array 7 [1; 2; 3; 4; 5; 6; 7] 3 = Some points
      /\ length points = 3%nat)
  /\ (exists points,
         Wasm.toVector3Array2D 0 [] = Some points /\ length points = 0%nat).
Proof.
  destruct converters_return_one_point_per_group as (H3 & H2).
  split.
  - apply (H3 7%nat [1; 2; 3; 4; 5; 6; 7]). simpl; lia.
  - apply (H2 0%nat []). simpl; lia.
Defined.

(** X9.  Round trip for the spatial systems: a buffer laid out as
    [[x0, y0, z0, x1, y1, z1, ...]] is turned back into exactly the points
    it was made from, in order. *)
Theorem toVector3Array_inverts_flat_layout :
  forall fuel points,
    (length points <= fuel)%nat ->
    Wasm.toVector3Array fuel (Wasm.flat3 points) 3 = Some points.
Proof.
  intros fuel points Hfuel.
  pose proof (groups3_flat3 points []) as H.
  rewrite !app_nil_r in H.
  rewrite toVector3Array_groups3; rewrite H; [reflexivity | exact Hfuel].
Qed.

Lemma toVector3Array_inverts_flat_layout_witness :
  Wasm.toVector3Array 2
    (Wasm.flat3 [THREE.new_Vector3 1 2 3; THREE.new_Vector3 NaN 0 neg_zero]) 3
  = Some [THREE.new_Vector3 1 2 3; THREE.new_Vector3 NaN 0 neg_zero].
Proof.
  apply (toVector3Array_inverts_flat_layout 2%nat
           [THREE.new_Vector3 1 2 3; THREE.new_Vector3 NaN 0 neg_zero]).
  simpl; lia.
Defined.

(** X10.  Round trip for the planar systems: a buffer laid out as
    [[x0, y0, x1, y1, ...]] becomes the points [(x_i, y_i, 0)], in order;
    every point has third coordinate [0]. *)
Theorem toVector3Array2D_inverts_flat_layout :
  forall fuel states,
    (length states <= fuel)%nat ->
    Wasm.toVector3Array2D fuel (Wasm.flat2 states)
    = Some (map (fun s => THREE.new_Vector3 (fst s) (snd s) 0) states).
Proof.
  intros fuel states Hfuel.
  pose proof (groups2_flat2 states []) as H.
  rewrite !app_nil_r in H.
  assert (Hmap : map point2 states
                 = map (fun s => THREE.new_Vector3 (fst s) (snd s) 0) states)
    by (apply map_ext; intros [s_0 s_1]; reflexivity).
  rewrite toVector3Array2D_groups2; rewrite H; [now rewrite Hmap|].
  now rewrite length_map.
Qed.

Lemma toVector3Array2D_inverts_flat_layout_witness :
  Wasm.toVector3Array2D 2 (Wasm.flat2 [(1, 2); (3, NaN)])
  = Some [THREE.new_Vector3 1 2 0; THREE.new_Vector3 3 NaN 0].
Proof.
  apply (toVector3Array2D_inverts_flat_layout 2%nat [(1, 2); (3, NaN)]).
  simpl; lia.
Defined.

(** X11.  A buffer whose length is not a multiple of the group size is not
    rejected: the values left over at the end become one more point, whose
    missing coordinates are [0]. *)
Theorem converters_pad_a_ragged_tail_with_zeros :
  (forall fuel points a,
      (length points < fuel)%nat ->
      Wasm.toVector3Array fuel (Wasm.flat3 points ++ [a]) 3
      = Some (points ++ [THREE.new_Vector3 a 0 0]))
  /\
  (forall fuel points a b,
      (length points < fuel)%nat ->
      Wasm.toVector3Array fuel (Wasm.flat3 points ++ [a; b]) 3
      = Some (points ++ [THREE.new_Vector3 a b 0]))
  /\
  (forall fuel states a,
      (length states < fuel)%nat ->
      Wasm.toVector3Array2D fuel (Wasm.flat2 states ++ [a])
      = Some (map (fun s => THREE.new_Vector3 (fst s) (snd s) 0) states
              ++ [THREE.new_Vector3 a 0 0])).
Proof.
  split; [|split]; intros.
  - rewrite toVector3Array_groups3; rewrite groups3_flat3; [reflexivity|].
    rewrite length_app; simpl; lia.
  - rewrite toVector3Array_groups3; rewrite groups3_flat3; [reflexivity|].
    rewrite length_app; simpl; lia.
  - assert (Hmap : map point2 states
                   = map (fun s => THREE.new_Vector3 (fst s) (snd s) 0) states)
      by (apply map_ext; intros [s_0 s_1]; reflexivity).
    rewrite toVector3Array2D_groups2; rewrite groups2_flat2;
      [now rewrite Hmap|].
    rewrite length_app, length_map; simpl; lia.
Qed.

Lemma converters_pad_a_ragged_tail_with_zeros_witness :
  Wasm.toVector3Array 2 (Wasm.flat3 [THREE.new_Vector3 1 2 3] ++ [4]) 3
  = Some ([THREE.new_Vector3 1 2 3] ++ [THREE.new_Vector3 4 0 0])
  /\ Wasm.toVector3Array 1 (Wasm.flat3 [] ++ [4; 5]) 3
     = Some ([] ++ [THREE.new_Vector3 4 5 0])
  /\ Wasm.toVector3Array2D 2 (Wasm.flat2 [(1, 2)] ++ [3])
     = Some (map (fun s => THREE.new_Vector3 (fst s) (snd s) 0) [(1, 2)]
             ++ [THREE.new_Vector3 3 0 0]).
Proof.
  destruct converters_pad_a_ragged_tail_with_zeros as (H1 & H2 & H3).
  split; [|split].
  - apply (H1 2%nat [THREE.new_Vector3 1 2 3] 4). simpl; lia.
  - apply (H2 1%nat [] 4 5). simpl; lia.
  - apply (H3 2%nat [(1, 2)] 3). simpl; lia.
Defined.

(* ================================================================= *)
(** ** Solving a preset *)

(** X12.  Whatever the preset holds, the dispatcher returns a trajectory:
    [steps + 1] points for a non-negative step count, starting at
    [(x0, y0, z0)] for the ids [lorenz] and [rossler] and at [(x0, y0, 0)]
    for [van_der_pol] and [damped_pendulum].  It is the id that decides;
    the [dimension] field is not consulted, the [z0] of a planar preset is
    not used, and a parameter missing from [params] is no error. *)
Theorem solve_preset_returns_a_trajectory :
  forall Math_sin fuel equation,
    (0 <= Equations.steps (Equations.simulation equation))%Z ->
    (Z.to_nat (Equations.steps (Equations.simulation equation)) <= fuel)%nat ->
    exists traj,
      View.solve Math_sin fuel equation = Some traj
      /\ Z.of_nat (length traj)
         = (Equations.steps (Equations.simulation equation) + 1)%Z
      /\ nth_error traj 0
         = Some (match Equations.id equation with
                 | Equations.lorenz | Equations.rossler =>
                     THREE.new_Vector3
                       (Equations.x0 (Equations.initial equation))
                       (Equations.y0 (Equations.initial equation))
                       (Equations.z0 (Equations.initial equation))
                 | Equations.van_der_pol | Equations.damped_pendulum =>
                     THREE.new_Vector3
                       (Equations.x0 (Equations.initial equation))
                       (Equations.y0 (Equations.initial equation))
                       0
                 end).
Proof.
  intros Math_sin fuel [id dimension params [x0 y0 z0] [dt steps]].
  cbn [Equations.steps Equations.simulation Equations.id Equations.initial
       Equations.x0 Equations.y0 Equations.z0].
  intros Hsteps Hfuel. unfold View.solve.
  cbn [Equations.steps Equations.simulation Equations.id Equations.initial
       Equations.x0 Equations.y0 Equations.z0 Equations.dt Equations.params].
  destruct id; run_solver;
    (eexists; split; [reflexivity|]);
    (split; [rewrite trajectory_length; lia | reflexivity]).
Qed.

Lemma solve_preset_returns_a_trajectory_witness :
  exists traj,
    View.solve (fun theta => theta) 3
      (Equations.mkEquationPreset Equations.van_der_pol 3 []
         (Equations.mkInitial 2 0 7) (Equations.mkSimulation (1 / 50) 3))
    = Some traj
    /\ Z.of_nat (length traj) = 4%Z
    /\ nth_error traj 0 = Some (THREE.new_Vector3 2 0 0).
Proof.
  apply (solve_preset_returns_a_trajectory (fun theta => theta) 3%nat
           (Equations.mkEquationPreset Equations.van_der_pol 3 []
              (Equations.mkInitial 2 0 7) (Equations.mkSimulation (1 / 50) 3)));
    simpl; lia.
Defined.


Lemma solve_equations (Math_sin : number -> number) (fuel : nat)
    (key : Equations.EquationType) :
  View.solve Math_sin fuel (Equations.equations key)
  = match key with
    | Equations.lorenz =>
        solveLorenz fuel
          (LorenzParams.make 10 28 (8 / 3) 1 1 1 (1 / 100) 10000)
    | Equations.van_der_pol =>
        solveVanDerPol fuel (VanDerPolParams.make (3 / 2) 2 0 (1 / 50) 5000)
    | Equations.damped_pendulum =>
        solveDampedPendulum Math_sin fuel
          (DampedPendulumParams.make (3 / 10) (3 / 2)
             (Math_PI - 1 / 2) 0 (1 / 50) 5000)
    | Equations.rossler =>
        solveRossler fuel
          (RosslerParams.make (1 / 5) (1 / 5) (57 / 10) 1 1 1 (1 / 50) 10000)
    end.
Proof. destruct key; reflexivity. Qed.

(** X14.  Every preset of the registry is displayed as it is declared:
    its trajectory has [steps + 1] points and starts at the preset's
    initial point in all three coordinates ([z0] included, which the planar
    solvers replace by [0]), and for the presets declared of dimension 2
    every point has third coordinate [0]. *)
Theorem registry_presets_match_their_solvers :
  forall Math_sin fuel key,
    let equation := Equations.equations key in
    (Z.to_nat (Equations.steps (Equations.simulation equation)) <= fuel)%nat ->
    exists traj,
      View.solve Math_sin fuel equation = Some traj
      /\ Z.of_nat (length traj)
         = (Equations.steps (Equations.simulation equation) + 1)%Z
      /\ nth_error traj 0
         = Some (THREE.new_Vector3
                   (Equations.x0 (Equations.initial equation))
                   (Equations.y0 (Equations.initial equation))
                   (Equations.z0 (Equations.initial equation)))
      /\ (Equations.dimension equation = 2%Z ->
          Forall (fun p => THREE.z p = 0) traj).
Proof.
  intros Math_sin fuel key equation Hfuel. subst equation.
  rewrite solve_equations.
  destruct key;
    [ rewrite solveLorenz_run by exact Hfuel
    | rewrite solveVanDerPol_run by exact Hfuel
    | rewrite solveDampedPendulum_run by exact Hfuel
    | rewrite solveRossler_run by exact Hfuel ];
    (eexists; split; [reflexivity|]);
    (split; [rewrite trajectory_length; reflexivity|]);
    (split; [reflexivity|]);
    intros Hdim; try discriminate Hdim; apply trajectory_point2_flat.
Qed.

Lemma registry_presets_match_their_solvers_witness :
  exists traj,
    View.solve (fun theta => theta) 5000
      (Equations.equations Equations.damped_pendulum)
    = Some traj
    /\ Z.of_nat (length traj) = 5001%Z
    /\ nth_error traj 0 = Some (THREE.new_Vector3 (Math_PI - 1 / 2) 0 0)
    /\ (2%Z = 2%Z -> Forall (fun p => THREE.z p = 0) traj).
Proof.
  apply (registry_presets_match_their_solvers (fun theta => theta) 5000%nat
           Equations.damped_pendulum).
  apply Nat.eq_le_incl. reflexivity.
Defined.

(* ================================================================= *)
(** ** The animated marker *)

Lemma FullView_next_advance (length prev : Z) :
  View.FullView_next length prev = advance 10 length prev.
Proof. reflexivity. Qed.

Lemma VisualizationCard_next_advance (length prev : Z) :
  View.VisualizationCard_next length prev = advance 15 length prev.
Proof. reflexivity. Qed.

Lemma advance_in_bounds (stride length prev : Z) :
  (0 < stride)%Z -> (0 < length)%Z -> (0 <= prev)%Z ->
  (0 <= advance stride length prev < length)%Z.
Proof.
  intros Hs Hl Hp. unfold advance.
  destruct (Z.geb_spec (prev + stride) length); lia.
Qed.

(** X15.  The animated index is always a valid index: on a non-empty
    trajectory, a tick maps every non-negative index to an index below
    [points.length]. *)
Theorem animated_index_stays_in_bounds :
  forall length prev,
    (0 < length)%Z -> (0 <= prev)%Z ->
    (0 <= View.FullView_next length prev < length)%Z
    /\ (0 <= View.VisualizationCard_next length prev < length)%Z.
Proof.
  intros length prev Hl Hp.
  rewrite FullView_next_advance, VisualizationCard_next_advance.
  split; apply advance_in_bounds; lia.
Qed.

Lemma animated_index_stays_in_bounds_witness :
  (0 <= View.FullView_next 10001 10000 < 10001)%Z
  /\ (0 <= View.VisualizationCard_next 10001 10000 < 10001)%Z.
Proof. apply (animated_index_stays_in_bounds 10001 10000); lia. Defined.

Lemma ticks_advance (stride length : Z) (k : nat) :
  (0 < stride)%Z -> (0 < length)%Z ->
  ticks (advance stride length) k
  = (stride * (Z.of_nat k mod ((length + stride - 1) / stride)))%Z.
Proof.
  intros Hs Hl.
  set (period := ((length + stride - 1) / stride)%Z).
  assert (Hperiod : (stride * (period - 1) < length <= stride * period)%Z).
  { subst period.
    pose proof (Z.div_mod (length + stride - 1) stride ltac:(lia)) as Hdm.
    pose proof (Z.mod_pos_bound (length + stride - 1) stride Hs) as Hmod.
    lia. }
  assert (Hpos : (0 < period)%Z) by nia.
  induction k as [|k IH]; [cbn [ticks]; rewrite Z.mod_0_l by lia; lia|].
  cbn [ticks]. rewrite IH. unfold advance.
  pose proof (Z.mod_pos_bound (Z.of_nat k) period Hpos) as Hr.
  pose proof (Z.div_mod (Z.of_nat k) period ltac:(lia)) as Hk.
  set (r := (Z.of_nat k mod period)%Z) in *.
  set (q := (Z.of_nat k / period)%Z) in *.
  destruct (Z.eq_dec (r + 1) period) as [Hwrap | Hnowrap].
  - assert (Hge : (stride * r + stride >=? length)%Z = true)
      by (apply Z.geb_le; nia).
    rewrite Hge.
    replace (Z.of_nat (S k)) with (0 + (q + 1) * period)%Z by lia.
    rewrite Z.mod_add by lia. rewrite Z.mod_0_l by lia. lia.
  - assert (Hlt : (stride * r + stride >=? length)%Z = false).
    { destruct (Z.geb_spec (stride * r + stride) length); [nia | reflexivity]. }
    rewrite Hlt.
    replace (Z.of_nat (S k)) with ((r + 1) + q * period)%Z by lia.
    rewrite Z.mod_add by lia. rewrite Z.mod_small by lia. lia.
Qed.

(** X16.  The animation is periodic.  After [k] ticks from index [0] the
    index is [stride * (k mod period)], with [period] the number of strides
    that cover the trajectory, [ceil(points.length / stride)]: stride 10 in
    [FullView], 15 in [VisualizationCard].  In particular the index is a
    multiple of the stride, and a trajectory no longer than one stride
    keeps the marker at index [0]. *)
Theorem animated_index_after_ticks :
  forall length k,
    (0 < length)%Z ->
    ticks (View.FullView_next length) k
    = (10 * (Z.of_nat k mod ((length + 9) / 10)))%Z
    /\ ticks (View.VisualizationCard_next length) k
       = (15 * (Z.of_nat k mod ((length + 14) / 15)))%Z.
Proof.
  intros length k Hl. split.
  - change (View.FullView_next length) with (advance 10 length).
    rewrite ticks_advance by lia. do 3 f_equal. lia.
  - change (View.VisualizationCard_next length) with (advance 15 length).
    rewrite ticks_advance by lia. do 3 f_equal. lia.
Qed.

Lemma animated_index_after_ticks_witness :
  ticks (View.FullView_next 10001) 1003 = (10 * (1003 mod 1001))%Z
  /\ ticks (View.VisualizationCard_next 10001) 1003 = (15 * (1003 mod 667))%Z.
Proof. apply (animated_index_after_ticks 10001 1003%nat). lia. Defined.



